(** * nix-server-conf-manager: the update pipeline of [main.go]

    The repository holds two variants of one Go program:

    - [src/main.go]            (module [MainGo] below), and
    - [src/unnamed/part_000]   (module [Part000] below), which in addition
      persists the applied revision with [saveConfig].

    Both are a single linear pipeline in [main]: load the configuration,
    validate the repository, check cleanliness, resolve the remote and the
    local tip, compare, pull, rebuild, notify.

    The embedding is shallow.  Every Go function becomes a Rocq function of
    the same name in a state-and-trace monad [Prog] over an abstract
    [Platform]: the operating system, the [git] and [nixos-rebuild]
    executables, the JSON codec and the HTTP transport are fields of the
    platform, so that every theorem about [main] holds whatever these
    collaborators answer.  A concrete platform, [Sim], simulates a small
    file system and one git checkout with its remote; it is used to run the
    program on concrete inputs and to compare the two variants' revision
    resolution. *)

From Stdlib Require Import String Ascii List Bool Arith Lia.
From stdpp Require Import base strings gmap.
Import ListNotations.
Local Open Scope string_scope.

(** ** Go's [strings] helpers used by the program *)

(** A Go string is a string of bytes, read as UTF-8.  White space is what
    [unicode.IsSpace] accepts.  In ASCII ([asciiSpace]): tab, line feed,
    vertical tab, form feed, carriage return, space. *)
Definition isSpace (c : ascii) : bool :=
  let n := nat_of_ascii c in
  (Nat.leb 9 n && Nat.leb n 13) || Nat.eqb n 32.

(** In two bytes: U+0085 (C2 85) and U+00A0 (C2 A0). *)
Definition isSpace2 (a b : ascii) : bool :=
  let x := nat_of_ascii a in
  let y := nat_of_ascii b in
  Nat.eqb x 194 && (Nat.eqb y 133 || Nat.eqb y 160).

(** In three bytes: U+1680 (E1 9A 80), U+2000 to U+200A (E2 80 80 to
    E2 80 8A), U+2028, U+2029 and U+202F (E2 80 A8, A9, AF), U+205F
    (E2 81 9F) and U+3000 (E3 80 80). *)
Definition isSpace3 (a b c : ascii) : bool :=
  let x := nat_of_ascii a in
  let y := nat_of_ascii b in
  let z := nat_of_ascii c in
  (Nat.eqb x 225 && Nat.eqb y 154 && Nat.eqb z 128)
  || (Nat.eqb x 226 && Nat.eqb y 128
      && ((Nat.leb 128 z && Nat.leb z 138)
          || Nat.eqb z 168 || Nat.eqb z 169 || Nat.eqb z 175))
  || (Nat.eqb x 226 && Nat.eqb y 129 && Nat.eqb z 159)
  || (Nat.eqb x 227 && Nat.eqb y 128 && Nat.eqb z 128).

(** A string as [TrimSpace] and [Fields] read it: white-space runes, and
    the bytes of everything else. *)
Inductive Piece :=
| Space (first : ascii) (more : string)
| Other (byte : ascii).

Definition space (p : Piece) : bool :=
  match p with
  | Space _ _ => true
  | Other _ => false
  end.

Definition bytes (p : Piece) : string :=
  match p with
  | Space a more => String a more
  | Other a => String a EmptyString
  end.

(** Reading from the left, as [for range s] does.  Where no white-space
    rune starts, Go decodes some other rune, or a single byte when the bytes
    are malformed; the bytes of a rune after its first are continuation
    bytes (80 to BF), and no white-space rune starts with one, so going on
    byte by byte finds the same white space.  Read from the right, as
    [TrimSpace] does at the end of the string, the runes are the same. *)
Fixpoint pieces (s : string) : list Piece :=
  match s with
  | EmptyString => []
  | String a s1 =>
      if isSpace a then Space a EmptyString :: pieces s1
      else
        match s1 with
        | EmptyString => [Other a]
        | String b s2 =>
            if isSpace2 a b then Space a (String b EmptyString) :: pieces s2
            else
              match s2 with
              | EmptyString => Other a :: pieces s1
              | String c s3 =>
                  if isSpace3 a b c
                  then Space a (String b (String c EmptyString)) :: pieces s3
                  else Other a :: pieces s1
              end
        end
  end.

Fixpoint join (ps : list Piece) : string :=
  match ps with
  | [] => EmptyString
  | p :: ps' => bytes p ++ join ps'
  end.

Fixpoint trimLeft (ps : list Piece) : list Piece :=
  match ps with
  | [] => []
  | p :: ps' => if space p then trimLeft ps' else ps
  end.

Fixpoint trimRight (ps : list Piece) : list Piece :=
  match ps with
  | [] => []
  | p :: ps' =>
      match trimRight ps' with
      | [] => if space p then [] else [p]
      | t => p :: t
      end
  end.

(** [strings.TrimSpace]: leading and trailing white space removed. *)
Definition TrimSpace (s : string) : string := join (trimRight (trimLeft (pieces s))).

(** [strings.Fields]: the maximal runs without white space, in order.
    [cur] is the field being read, [None] between fields. *)
Fixpoint fieldsFrom (cur : option string) (ps : list Piece) : list string :=
  match ps with
  | [] => match cur with Some f => [f] | None => [] end
  | Space _ _ :: ps' =>
      match cur with
      | Some f => f :: fieldsFrom None ps'
      | None => fieldsFrom None ps'
      end
  | Other c :: ps' =>
      fieldsFrom (Some (match cur with
                        | Some f => f ++ String c EmptyString
                        | None => String c EmptyString
                        end)) ps'
  end.

Definition Fields (s : string) : list string := fieldsFrom None (pieces s).

(** Notions to reason about the pieces of a string. *)

(** The white-space rune a string starts with, if any, and what follows
    it. *)
Definition lead (s : string) : option (Piece * string) :=
  match s with
  | String a s1 =>
      if isSpace a then Some (Space a "", s1)
      else
        match s1 with
        | String b s2 =>
            if isSpace2 a b then Some (Space a (String b ""), s2)
            else
              match s2 with
              | String c s3 =>
                  if isSpace3 a b c
                  then Some (Space a (String b (String c "")), s3)
                  else None
              | EmptyString => None
              end
        | EmptyString => None
        end
  | EmptyString => None
  end.

(** The pieces of a string without white space: its bytes. *)
Fixpoint plain (s : string) : list Piece :=
  match s with
  | EmptyString => []
  | String a s' => Other a :: plain s'
  end.

(** A list of pieces that reads back as itself. *)
Definition tight (ps : list Piece) : Prop := pieces (join ps) = ps.

(** ** Data model *)

(** [type Config struct] (identical in both variants). *)
Record Config := mkConfig {
  RepoURL : string;
  Branch : string;
  RepoPath : string;
  DiscordWebhook : string;
  LastCommitHash : string;
}.

(** The assignment [cfg.LastCommitHash = h]. *)
Definition set_LastCommitHash (h : string) (cfg : Config) : Config :=
  {| RepoURL := RepoURL cfg; Branch := Branch cfg; RepoPath := RepoPath cfg;
     DiscordWebhook := DiscordWebhook cfg; LastCommitHash := h |}.

(** A Go [(T, error)] result; an [error] is represented by its message,
    which is all the program ever does with one ([%v]). *)
Inductive Res (A : Type) : Type :=
| Ok (a : A)
| Err (msg : string).
Arguments Ok {A} a.
Arguments Err {A} msg.

(** What [os.Stat] reports that the program looks at: [info.IsDir()]. *)
Record FileInfo := mkFileInfo { IsDir : bool }.

(** What a finished child process gives back: its standard output and the
    [error] of [cmd.Run] / [cmd.Output] ([None] is [nil]). *)
Record CmdResult := mkCmdResult {
  cmd_stdout : string;
  cmd_err : option string;
}.

(** The Go functions of the program, as names for the call trace. *)
Inductive Fn :=
| F_loadConfig | F_saveConfig | F_getRemoteHash | F_getLocalHash
| F_isRepoClean | F_pullRepo | F_rebuildNixOS | F_sendDiscord | F_isGitRepo.

(** A value a function returned, as recorded in the call trace. *)
Inductive Ret :=
| RetNil                    (* no value, or a nil error *)
| RetBool (b : bool)
| RetStr (s : string)
| RetCfg (c : Config)
| RetErr (msg : string).    (* a non-nil error *)

(** What a run does, in order.  [EvCall] and [EvRet] are ghost events: they
    record that a Go function was entered and what it returned, and change
    nothing.  The others are the program's interactions with the platform. *)
Inductive Event :=
| EvCall (f : Fn)
| EvRet (f : Fn) (r : Ret)
| EvOpen (path : string)                   (* os.Open *)
| EvCreate (path : string)                 (* os.Create *)
| EvEncode (path : string) (cfg : Config)  (* encoder.Encode(cfg) into the file *)
| EvHostname                               (* os.Hostname *)
| EvStat (path : string)                   (* os.Stat *)
| EvExec (argv : list string)              (* exec.Command(...).Run / .Output *)
| EvPost (url message : string)            (* http.Post of {content: message} *)
| EvLog (line : string).                   (* log.Printf, log.Fatalf *)

(** The outcome of a run: one per way [main] ends. *)
Inductive Side := Remote | Local.

Inductive RunOutcome :=
| ConfigurationError (cause : string)
| NotAVCSRepo
| StatusQueryError (cause : string)
| DirtyWorkingTree
| ComparatorFailure (side : Side) (cause : string)
| NoChange
| SyncFailure (cause : string)
| RebuildFailure (cause : string)
| Success.

(** How the process ends: [log.Fatalf] exits with status 1, a [return] from
    [main] (or its end) exits with status 0. *)
Inductive Termination :=
| Fatal (o : RunOutcome)
| Returned (o : RunOutcome).

(** ** The platform *)

(** The collaborators the program calls.  [W] is the state of the world
    they act on. *)
Record Platform (W : Type) := mkPlatform {
  os_Open : string -> W -> Res string;
  json_Decode : string -> Res Config;
  os_Create : string -> W -> option string * W;
  json_Encode : string -> Config -> W -> option string * W;
  os_Hostname : W -> Res string;
  os_Stat : string -> W -> Res FileInfo;
  exec_Command : list string -> W -> CmdResult * W;
  http_Post : string -> string -> W -> option string;
}.
Arguments os_Open {W}. Arguments json_Decode {W}. Arguments os_Create {W}.
Arguments json_Encode {W}. Arguments os_Hostname {W}. Arguments os_Stat {W}.
Arguments exec_Command {W}. Arguments http_Post {W}.

(** The same platform with another HTTP transport. *)
Definition with_http {W} (P : Platform W)
    (post : string -> string -> W -> option string) : Platform W :=
  {| os_Open := os_Open P; json_Decode := json_Decode P;
     os_Create := os_Create P; json_Encode := json_Encode P;
     os_Hostname := os_Hostname P; os_Stat := os_Stat P;
     exec_Command := exec_Command P; http_Post := post |}.

(** ** The monad of programs: world state and a trace of events *)

Definition Prog (W A : Type) : Type := W -> A * W * list Event.

Definition ret {W A} (a : A) : Prog W A := fun w => (a, w, []).

Definition bind {W A B} (m : Prog W A) (k : A -> Prog W B) : Prog W B :=
  fun w =>
    let '(a, w1, t1) := m w in
    let '(b, w2, t2) := k a w1 in
    (b, w2, (t1 ++ t2)%list).

Definition emit {W} (e : Event) : Prog W unit := fun w => (tt, w, [e]).

Notation "'let*' x ':=' m 'in' k" := (bind m (fun x => k))
  (at level 10, x name, m at level 100, k at level 200).
Notation "m '>>' k" := (bind m (fun _ => k))
  (at level 100, k at level 200, right associativity).

(** Ghost bracket around a function body. *)
Definition traced {W A} (f : Fn) (show : A -> Ret) (body : Prog W A) : Prog W A :=
  emit (EvCall f) >>
  let* a := body in
  emit (EvRet f (show a)) >>
  ret a.

Definition show_bool (b : bool) : Ret := RetBool b.
Definition show_error (e : option string) : Ret :=
  match e with Some m => RetErr m | None => RetNil end.
Definition show_res {A} (show : A -> Ret) (r : Res A) : Ret :=
  match r with Ok a => show a | Err m => RetErr m end.

(** [log.Printf]. *)
Definition Printf {W} (line : string) : Prog W unit := emit (EvLog line).

(** [log.Fatalf]: the line is logged and the process exits with status 1;
    [o] names the exit point. *)
Definition Fatalf {W} (line : string) (o : RunOutcome) : Prog W Termination :=
  emit (EvLog line) >> ret (Fatal o).

(** ** Functions that are the same in both source files *)

Section Shared.
Context {W : Type} (P : Platform W).

(** The platform calls, lifted to programs; each leaves its event. *)
Definition Open (path : string) : Prog W (Res string) :=
  fun w => (os_Open P path w, w, [EvOpen path]).
Definition Create (path : string) : Prog W (option string) :=
  fun w => let '(e, w') := os_Create P path w in (e, w', [EvCreate path]).
Definition Encode (path : string) (cfg : Config) : Prog W (option string) :=
  fun w => let '(e, w') := json_Encode P path cfg w in (e, w', [EvEncode path cfg]).
Definition Hostname : Prog W (Res string) :=
  fun w => (os_Hostname P w, w, [EvHostname]).
Definition Stat (path : string) : Prog W (Res FileInfo) :=
  fun w => (os_Stat P path w, w, [EvStat path]).
Definition Command (argv : list string) : Prog W CmdResult :=
  fun w => let '(r, w') := exec_Command P argv w in (r, w', [EvExec argv]).
Definition Post (url message : string) : Prog W (option string) :=
  fun w => (http_Post P url message w, w, [EvPost url message]).

(** [func isRepoClean(repoPath string) (bool, error)] *)
Definition isRepoClean (repoPath : string) : Prog W (Res bool) :=
  traced F_isRepoClean (show_res show_bool) (
    let* out := Command ["git"; "-C"; repoPath; "status"; "--porcelain"] in
    match cmd_err out with
    | Some err => ret (Err err)
    | None => ret (Ok (String.eqb (TrimSpace (cmd_stdout out)) ""))
    end).

(** The loop [for _, args := range cmds] of [pullRepo]. *)
Fixpoint runEach (cmds : list (list string)) : Prog W (option string) :=
  match cmds with
  | [] => ret None
  | args :: rest =>
      let* out := Command args in
      match cmd_err out with
      | Some err => ret (Some ("git command failed: " ++ err))
      | None => runEach rest
      end
  end.

(** [func pullRepo(repoPath, branch string) error] *)
Definition pullRepo (repoPath branch : string) : Prog W (option string) :=
  traced F_pullRepo show_error (
    runEach [ ["git"; "-C"; repoPath; "fetch"; "origin"; branch];
              ["git"; "-C"; repoPath; "reset"; "--hard"; "origin/" ++ branch] ]).

(** [func rebuildNixOS() error] *)
Definition rebuildNixOS : Prog W (option string) :=
  traced F_rebuildNixOS show_error (
    let* out := Command ["nixos-rebuild"; "switch"] in
    ret (cmd_err out)).

(** [func sendDiscord(webhookURL, message string)] *)
Definition sendDiscord (webhookURL message : string) : Prog W unit :=
  traced F_sendDiscord (fun _ => RetNil) (
    let* err := Post webhookURL message in
    match err with
    | Some e => Printf ("failed to send Discord webhook: " ++ e)
    | None => ret tt
    end).

(** [func isGitRepo(path string) bool] *)
Definition isGitRepo (path : string) : Prog W bool :=
  traced F_isGitRepo show_bool (
    let gitDir := path ++ "/.git" in
    let* st := Stat gitDir in
    match st with
    | Ok info => ret (IsDir info)
    | Err _ => ret false
    end).
End Shared.

(** ** [src/main.go] *)

Module MainGo.
Section WithPlatform.
Context {W : Type} (P : Platform W).

(** [func loadConfig()], returning a pointer to a [Config] and an [error] *)
Definition loadConfig : Prog W (Res Config) :=
  traced F_loadConfig (show_res RetCfg) (
    let* file := Open P "/etc/nix-config-manager.json" in
    match file with
    | Err err => ret (Err ("failed to open nix-config-manager.json: " ++ err))
    | Ok data =>
        match json_Decode P data with
        | Err err => ret (Err ("failed to decode nix-config-manager.json: " ++ err))
        | Ok cfg => ret (Ok cfg)
        end
    end).

(** [func getRemoteHash(repoPath, branch string) (string, error)] *)
Definition getRemoteHash (repoPath branch : string) : Prog W (Res string) :=
  traced F_getRemoteHash (show_res RetStr) (
    let* out := Command P ["git"; "-C"; repoPath; "ls-remote"; "origin"; branch] in
    match cmd_err out with
    | Some err => ret (Err ("failed to get remote hash: " ++ err))
    | None =>
        match Fields (cmd_stdout out) with
        | part0 :: _ => ret (Ok part0)
        | [] => ret (Err ("no hash found for branch " ++ branch))
        end
    end).

(** [func getLocalHash(repoPath, branch string) (string, error)] *)
Definition getLocalHash (repoPath branch : string) : Prog W (Res string) :=
  traced F_getLocalHash (show_res RetStr) (
    let* fetched := Command P ["git"; "-C"; repoPath; "fetch"; "origin"; branch] in
    match cmd_err fetched with
    | Some err =>
        ret (Err ("failed to fetch updates for branch " ++ branch ++ ": " ++ err))
    | None =>
        let* out := Command P ["git"; "-C"; repoPath; "rev-parse"; branch] in
        match cmd_err out with
        | Some err => ret (Err ("failed to get local hash: " ++ err))
        | None => ret (Ok (TrimSpace (cmd_stdout out)))
        end
    end).

(** [func main()] *)
Definition main : Prog W Termination :=
  let* loaded := loadConfig in
  match loaded with
  | Err err => Fatalf ("Error loading config: " ++ err) (ConfigurationError err)
  | Ok cfg =>
  let* name := Hostname P in
  let* hostname :=
    match name with
    | Ok h => ret h
    | Err err => Printf ("failed to get hostname: " ++ err) >> ret "unknown-host"
    end in
  let* isRepo := isGitRepo P (RepoPath cfg) in
  if negb isRepo then
    sendDiscord P (DiscordWebhook cfg)
      ("Repo path `" ++ RepoPath cfg ++ "` on `" ++ hostname ++ "` is not a Git repo") >>
    Fatalf ("Not a Git repo: " ++ RepoPath cfg) NotAVCSRepo
  else
  let* status := isRepoClean P (RepoPath cfg) in
  match status with
  | Err err =>
      sendDiscord P (DiscordWebhook cfg)
        ("Failed to check Git status on `" ++ hostname ++ "`: " ++ err) >>
      ret (Returned (StatusQueryError err))
  | Ok isClean =>
  if negb isClean then
    sendDiscord P (DiscordWebhook cfg)
      ("Repo at `" ++ RepoPath cfg ++ "` on `" ++ hostname
         ++ "` has uncommitted changes. Skipping rebuild.") >>
    ret (Returned DirtyWorkingTree)
  else
  let* remote := getRemoteHash (RepoPath cfg) (Branch cfg) in
  match remote with
  | Err err =>
      sendDiscord P (DiscordWebhook cfg)
        ("Failed to get remote hash on `" ++ hostname ++ "`: " ++ err) >>
      ret (Returned (ComparatorFailure Remote err))
  | Ok remoteHash =>
  let* loc := getLocalHash (RepoPath cfg) (Branch cfg) in
  match loc with
  | Err err =>
      sendDiscord P (DiscordWebhook cfg)
        ("Failed to get local hash on `" ++ hostname ++ "`: " ++ err) >>
      ret (Returned (ComparatorFailure Local err))
  | Ok localHash =>
  Printf ("Remote Hash: " ++ remoteHash) >>
  Printf ("Local Hash: " ++ localHash) >>
  if String.eqb remoteHash localHash then
    Printf "No changes detected." >>
    ret (Returned NoChange)
  else
  Printf "Change detected! Pulling and rebuilding..." >>
  let* pulled := pullRepo P (RepoPath cfg) (Branch cfg) in
  match pulled with
  | Some err =>
      sendDiscord P (DiscordWebhook cfg)
        ("Failed to pull repo on `" ++ hostname ++ "`: " ++ err) >>
      ret (Returned (SyncFailure err))
  | None =>
  let* rebuilt := rebuildNixOS P in
  match rebuilt with
  | Some err =>
      sendDiscord P (DiscordWebhook cfg)
        ("NixOS rebuild failed on `" ++ hostname ++ "`: " ++ err) >>
      ret (Returned (RebuildFailure err))
  | None =>
  Printf "NixOS rebuild successful." >>
  sendDiscord P (DiscordWebhook cfg)
    ("NixOS rebuild successful on `" ++ hostname ++ "`.") >>
  ret (Returned Success)
  end end end end end end.
End WithPlatform.
End MainGo.

(** ** [src/unnamed/part_000] *)

Module Part000.
Section WithPlatform.
Context {W : Type} (P : Platform W).

(** [func loadConfig()], returning a pointer to a [Config] and an [error] *)
Definition loadConfig : Prog W (Res Config) :=
  traced F_loadConfig (show_res RetCfg) (
    let* file := Open P "config.json" in
    match file with
    | Err err => ret (Err ("failed to open config.json: " ++ err))
    | Ok data =>
        match json_Decode P data with
        | Err err => ret (Err ("failed to decode config.json: " ++ err))
        | Ok cfg => ret (Ok cfg)
        end
    end).

(** [func saveConfig(cfg *Config) error] *)
Definition saveConfig (cfg : Config) : Prog W (option string) :=
  traced F_saveConfig show_error (
    let* created := Create P "config.json" in
    match created with
    | Some err => ret (Some ("failed to create config.json: " ++ err))
    | None =>
        let* encoded := Encode P "config.json" cfg in
        match encoded with
        | Some err => ret (Some ("failed to encode config.json: " ++ err))
        | None => ret None
        end
    end).

(** [func getRemoteHash(repoPath, branch string) (string, error)] *)
Definition getRemoteHash (repoPath branch : string) : Prog W (Res string) :=
  traced F_getRemoteHash (show_res RetStr) (
    let* fetched := Command P ["git"; "-C"; repoPath; "fetch"; "origin"; branch] in
    match cmd_err fetched with
    | Some err => ret (Err ("git fetch failed: " ++ err))
    | None =>
        let* out :=
          Command P ["git"; "-C"; repoPath; "rev-parse"; "origin/" ++ branch] in
        match cmd_err out with
        | Some err => ret (Err err)
        | None => ret (Ok (TrimSpace (cmd_stdout out)))
        end
    end).

(** [func getLocalHash(repoPath string) (string, error)] *)
Definition getLocalHash (repoPath : string) : Prog W (Res string) :=
  traced F_getLocalHash (show_res RetStr) (
    let* out := Command P ["git"; "-C"; repoPath; "rev-parse"; "HEAD"] in
    match cmd_err out with
    | Some err => ret (Err err)
    | None => ret (Ok (TrimSpace (cmd_stdout out)))
    end).

(** [func main()] *)
Definition main : Prog W Termination :=
  let* loaded := loadConfig in
  match loaded with
  | Err err => Fatalf ("Error loading config: " ++ err) (ConfigurationError err)
  | Ok cfg =>
  let* name := Hostname P in
  let* hostname :=
    match name with
    | Ok h => ret h
    | Err err => Printf ("failed to get hostname: " ++ err) >> ret "unknown-host"
    end in
  let* isRepo := isGitRepo P (RepoPath cfg) in
  if negb isRepo then
    sendDiscord P (DiscordWebhook cfg)
      ("Repo path `" ++ RepoPath cfg ++ "` on `" ++ hostname ++ "` is not a Git repo") >>
    Fatalf ("Not a Git repo: " ++ RepoPath cfg) NotAVCSRepo
  else
  let* status := isRepoClean P (RepoPath cfg) in
  match status with
  | Err err =>
      sendDiscord P (DiscordWebhook cfg)
        ("Failed to check Git status on `" ++ hostname ++ "`: " ++ err) >>
      ret (Returned (StatusQueryError err))
  | Ok isClean =>
  if negb isClean then
    sendDiscord P (DiscordWebhook cfg)
      ("Repo at `" ++ RepoPath cfg ++ "` on `" ++ hostname
         ++ "` has uncommitted changes. Skipping rebuild.") >>
    ret (Returned DirtyWorkingTree)
  else
  let* remote := getRemoteHash (RepoPath cfg) (Branch cfg) in
  match remote with
  | Err err =>
      sendDiscord P (DiscordWebhook cfg)
        ("Failed to get remote hash on `" ++ hostname ++ "`: " ++ err) >>
      ret (Returned (ComparatorFailure Remote err))
  | Ok remoteHash =>
  let* loc := getLocalHash (RepoPath cfg) in
  match loc with
  | Err err =>
      sendDiscord P (DiscordWebhook cfg)
        ("Failed to get local hash on `" ++ hostname ++ "`: " ++ err) >>
      ret (Returned (ComparatorFailure Local err))
  | Ok localHash =>
  Printf ("Remote Hash: " ++ remoteHash) >>
  Printf ("Local Hash: " ++ localHash) >>
  if String.eqb remoteHash localHash then
    Printf "No changes detected." >>
    ret (Returned NoChange)
  else
  Printf "Change detected! Pulling and rebuilding..." >>
  let* pulled := pullRepo P (RepoPath cfg) (Branch cfg) in
  match pulled with
  | Some err =>
      sendDiscord P (DiscordWebhook cfg)
        ("Failed to pull repo on `" ++ hostname ++ "`: " ++ err) >>
      ret (Returned (SyncFailure err))
  | None =>
  let* rebuilt := rebuildNixOS P in
  match rebuilt with
  | Some err =>
      sendDiscord P (DiscordWebhook cfg)
        ("NixOS rebuild failed on `" ++ hostname ++ "`: " ++ err) >>
      ret (Returned (RebuildFailure err))
  | None =>
  let cfg := set_LastCommitHash remoteHash cfg in
  let* saved := saveConfig cfg in
  match saved with
  | Some err => Printf ("Failed to save config: " ++ err)
  | None => ret tt
  end >>
  Printf "NixOS rebuild successful." >>
  sendDiscord P (DiscordWebhook cfg)
    ("NixOS rebuild successful on `" ++ hostname ++ "`.") >>
  ret (Returned Success)
  end end end end end end.
End WithPlatform.
End Part000.

(** ** A simulated platform

    A small machine to run the program on: a file system, a host name, one
    git checkout with its remote [origin], the [nixos-rebuild] command and
    the webhook.  The git commands the program issues are given the meaning
    the git manual gives them. *)

Module Sim.

Definition LF : string := String "010"%char EmptyString.
Definition TAB : string := String "009"%char EmptyString.

(** Object ids are hexadecimal by construction, and never empty. *)
Inductive hex :=
| x0 | x1 | x2 | x3 | x4 | x5 | x6 | x7
| x8 | x9 | xa | xb | xc | xd | xe | xf.

Definition hex_char (d : hex) : ascii :=
  match d with
  | x0 => "0" | x1 => "1" | x2 => "2" | x3 => "3"
  | x4 => "4" | x5 => "5" | x6 => "6" | x7 => "7"
  | x8 => "8" | x9 => "9" | xa => "a" | xb => "b"
  | xc => "c" | xd => "d" | xe => "e" | xf => "f"
  end%char.

Record Oid := mkOid { oid_head : hex; oid_tail : list hex }.

Fixpoint hex_text (ds : list hex) : string :=
  match ds with
  | [] => EmptyString
  | d :: ds' => String (hex_char d) (hex_text ds')
  end.

(** The id as git prints it. *)
Definition oid_text (o : Oid) : string := hex_text (oid_head o :: oid_tail o).

Inductive Node :=
| Directory
| Regular (data : string).

Inductive Head :=
| OnBranch (b : string)
| Detached (o : Oid).

Record World := mkWorld {
  files : gmap string Node;
  hostname : option string;          (* [None]: os.Hostname fails *)
  readonly : bool;                   (* the file system refuses writes *)
  repo_root : string;                (* where the checkout is *)
  head : Head;
  heads : gmap string Oid;           (* refs/heads/<b> *)
  tracking : gmap string Oid;        (* refs/remotes/origin/<b> *)
  porcelain : list string;           (* lines of [git status --porcelain] *)
  origin : nat -> option (gmap string Oid);
                                     (* the remote's branches at its n-th
                                        contact; [None]: unreachable *)
  contacts : nat;                    (* contacts made so far *)
  rebuild : option string;           (* the error of [nixos-rebuild switch] *)
  webhook : option string;           (* the error of the HTTP POST *)
}.

Definition set_files (f : gmap string Node) (w : World) : World :=
  mkWorld f (hostname w) (readonly w) (repo_root w) (head w) (heads w)
          (tracking w) (porcelain w) (origin w) (contacts w) (rebuild w) (webhook w).
Definition set_tracking (t : gmap string Oid) (w : World) : World :=
  mkWorld (files w) (hostname w) (readonly w) (repo_root w) (head w) (heads w)
          t (porcelain w) (origin w) (contacts w) (rebuild w) (webhook w).
Definition set_contacts (n : nat) (w : World) : World :=
  mkWorld (files w) (hostname w) (readonly w) (repo_root w) (head w) (heads w)
          (tracking w) (porcelain w) (origin w) n (rebuild w) (webhook w).
Definition set_checkout (h : Head) (hs : gmap string Oid) (lines : list string)
    (w : World) : World :=
  mkWorld (files w) (hostname w) (readonly w) (repo_root w) h hs
          (tracking w) lines (origin w) (contacts w) (rebuild w) (webhook w).

(** *** Files and the configuration codec *)

Definition stat (path : string) (w : World) : Res FileInfo :=
  match files w !! path with
  | Some Directory => Ok (mkFileInfo true)
  | Some (Regular _) => Ok (mkFileInfo false)
  | None => Err ("stat " ++ path ++ ": no such file or directory")
  end.

Definition open (path : string) (w : World) : Res string :=
  match files w !! path with
  | Some (Regular data) => Ok data
  | Some Directory => Ok ""
  | None => Err ("open " ++ path ++ ": no such file or directory")
  end.

Definition create (path : string) (w : World) : option string * World :=
  if readonly w then (Some ("open " ++ path ++ ": read-only file system"), w)
  else match files w !! path with
       | Some Directory => (Some ("open " ++ path ++ ": is a directory"), w)
       | _ => (None, set_files (<[path := Regular ""]> (files w)) w)
       end.

(** The codec stands in for encoding/json: the five fields, one per line. *)
Definition encode_text (cfg : Config) : string :=
  RepoURL cfg ++ LF ++ Branch cfg ++ LF ++ RepoPath cfg ++ LF
    ++ DiscordWebhook cfg ++ LF ++ LastCommitHash cfg.

Fixpoint linesFrom (cur s : string) : list string :=
  match s with
  | EmptyString => [cur]
  | String c s' =>
      if Ascii.eqb c "010" then cur :: linesFrom "" s'
      else linesFrom (cur ++ String c "") s'
  end.

Definition decode (data : string) : Res Config :=
  match linesFrom "" data with
  | [a; b; c; d; e] => Ok (mkConfig a b c d e)
  | _ => Err "unexpected end of JSON input"
  end.

Definition encode (path : string) (cfg : Config) (w : World)
    : option string * World :=
  (None, set_files (<[path := Regular (encode_text cfg)]> (files w)) w).

(** *** git

    The checkout is a clone with the default fetch refspec; the refs of the
    model are [HEAD], the local branches, the remote-tracking branches of
    [origin] and the branches of the remote.  Tags, the remote's own [HEAD]
    and the object store are left out, and names are taken as written, not
    as options, globs or revision expressions (see [plain_name]). *)

Definition exit128 : CmdResult := mkCmdResult "" (Some "exit status 128").
Definition prints (out : string) : CmdResult := mkCmdResult out None.

Fixpoint stripPrefix (p s : string) : option string :=
  match p, s with
  | EmptyString, _ => Some s
  | String a p', String b s' => if Ascii.eqb a b then stripPrefix p' s' else None
  | String _ _, EmptyString => None
  end.

Fixpoint ends_with (suffix s : string) : bool :=
  String.eqb suffix s
  || match s with
     | EmptyString => false
     | String _ s' => ends_with suffix s'
     end.

(** The first candidate that is there. *)
Fixpoint first_of {A} (candidates : list (option A)) : option A :=
  match candidates with
  | [] => None
  | Some x :: _ => Some x
  | None :: rest => first_of rest
  end.

(** The entry of [refs] that [name] denotes once [prefix] is taken off. *)
Definition under (prefix name : string) (refs : gmap string Oid) : option (string * Oid) :=
  match stripPrefix prefix name with
  | Some k => match refs !! k with Some o => Some (k, o) | None => None end
  | None => None
  end.

Definition resolve_head (w : World) : option Oid :=
  match head w with
  | OnBranch b => heads w !! b
  | Detached o => Some o
  end.

(** What [git rev-parse <name>] resolves [name] to.  After [HEAD], git
    tries [name] as a full ref name, then [refs/<name>], [refs/heads/<name>]
    and [refs/remotes/<name>], and takes the first ref that exists: a local
    branch [origin/x] hides the remote-tracking branch of [x]. *)
Definition rev_parse (name : string) (w : World) : option Oid :=
  if String.eqb name "HEAD" then resolve_head w
  else
    option_map snd
      (first_of [ under "refs/heads/" name (heads w);
                  under "refs/remotes/origin/" name (tracking w);
                  under "heads/" name (heads w);
                  under "remotes/origin/" name (tracking w);
                  under "" name (heads w);
                  under "origin/" name (tracking w) ]).

(** git finds the checkout: [-C] names its root and [.git] is there. *)
Definition in_checkout (path : string) (w : World) : bool :=
  String.eqb path (repo_root w)
    && match files w !! (path ++ "/.git") with Some _ => true | None => false end.

(** One more contact with the remote. *)
Definition contact (w : World) : option (gmap string Oid) * World :=
  (origin w (contacts w), set_contacts (S (contacts w)) w).

Definition git_status (w : World) : CmdResult * World :=
  (prints (String.concat "" (map (fun l => l ++ LF) (porcelain w))), w).

(** A ref of the remote: its full name and what it points to. *)
Definition branch_ref (kv : string * Oid) : string * Oid :=
  ("refs/heads/" ++ fst kv, snd kv).

Fixpoint insert_by_name (r : string * Oid) (l : list (string * Oid))
    : list (string * Oid) :=
  match l with
  | [] => [r]
  | r' :: l' =>
      if String.leb (fst r) (fst r') then r :: l else r' :: insert_by_name r l'
  end.

Definition by_name (l : list (string * Oid)) : list (string * Oid) :=
  foldr insert_by_name [] l.

(** What the remote advertises, in the order of the ref names. *)
Definition advertised (refs : gmap string Oid) : list (string * Oid) :=
  by_name (branch_ref <$> map_to_list refs).

(** [git ls-remote <remote> <pattern>] lists the refs whose name is
    [pattern] or ends in [/pattern]: for [main] also [refs/heads/dev/main]. *)
Definition tail_match (pattern ref : string) : bool :=
  ends_with ("/" ++ pattern) ("/" ++ ref).

Definition listed (pattern : string) (refs : gmap string Oid) : list (string * Oid) :=
  filter (fun r => tail_match pattern (fst r) = true) (advertised refs).

Definition ref_line (r : string * Oid) : string :=
  oid_text (snd r) ++ TAB ++ fst r ++ LF.

Definition git_ls_remote (b : string) (w : World) : CmdResult * World :=
  match contact w with
  | (None, w') => (exit128, w')
  | (Some refs, w') => (prints (String.concat "" (ref_line <$> listed b refs)), w')
  end.

(** The branch of the remote that [git fetch origin <name>] takes [name]
    for: [name] as a full ref name, then [refs/<name>], then
    [refs/heads/<name>]. *)
Definition fetch_source (name : string) (refs : gmap string Oid)
    : option (string * Oid) :=
  first_of [ under "refs/heads/" name refs;
             under "heads/" name refs;
             under "" name refs ].

(** Fetching a branch moves its remote-tracking branch.  The empty name
    stands for the remote's [HEAD], which a remote with a branch has: that
    fetch succeeds and moves nothing. *)
Definition git_fetch (b : string) (w : World) : CmdResult * World :=
  match contact w with
  | (None, w') => (exit128, w')
  | (Some refs, w') =>
      if String.eqb b ""
      then (if decide (refs = ∅) then exit128 else prints "", w')
      else
        match fetch_source b refs with
        | Some (k, o) => (prints "", set_tracking (<[k := o]> (tracking w')) w')
        | None => (exit128, w')
        end
  end.

(** A name that does not resolve is echoed, and the command fails. *)
Definition git_rev_parse (name : string) (w : World) : CmdResult * World :=
  match rev_parse name w with
  | Some o => (prints (oid_text o ++ LF), w)
  | None => (mkCmdResult (name ++ LF) (Some "exit status 128"), w)
  end.





Definition untracked (line : string) : bool := String.prefix "??" line.

Definition git_reset_hard (target : string) (w : World) : CmdResult * World :=
  match rev_parse target w with
  | None => (exit128, w)
  | Some o =>
      let kept := filter (fun l => untracked l = true) (porcelain w) in
      (prints ("HEAD is now at " ++ oid_text o ++ LF),
       match head w with
       | OnBranch b => set_checkout (OnBranch b) (<[b := o]> (heads w)) kept w
       | Detached _ => set_checkout (Detached o) (heads w) kept w
       end)
  end.

Definition git (path : string) (args : list string) (w : World)
    : CmdResult * World :=
  if negb (in_checkout path w) then (exit128, w)
  else match args with
       | [sub; a] =>
           if String.eqb sub "status" && String.eqb a "--porcelain" then git_status w
           else if String.eqb sub "rev-parse" then git_rev_parse a w
           else (exit128, w)
       | [sub; a; b] =>
           if String.eqb sub "ls-remote" && String.eqb a "origin" then git_ls_remote b w
           else if String.eqb sub "fetch" && String.eqb a "origin" then git_fetch b w
           else if String.eqb sub "reset" && String.eqb a "--hard" then git_reset_hard b w
           else (exit128, w)
       | _ => (exit128, w)
       end.

Definition nixos_rebuild (w : World) : CmdResult * World :=
  (mkCmdResult "" (rebuild w), w).

Definition exec (argv : list string) (w : World) : CmdResult * World :=
  match argv with
  | prog :: c :: path :: args =>
      if String.eqb prog "git" && String.eqb c "-C" then git path args w
      else (mkCmdResult "" (Some "executable file not found in $PATH"), w)
  | [prog; a] =>
      if String.eqb prog "nixos-rebuild" && String.eqb a "switch" then nixos_rebuild w
      else (mkCmdResult "" (Some "executable file not found in $PATH"), w)
  | _ => (mkCmdResult "" (Some "executable file not found in $PATH"), w)
  end.

Definition platform : Platform World :=
  {| os_Open := open;
     json_Decode := decode;
     os_Create := create;
     json_Encode := encode;
     os_Hostname := fun w => match hostname w with
                             | Some h => Ok h
                             | None => Err "hostname: cannot read"
                             end;
     os_Stat := stat;
     exec_Command := exec;
     http_Post := fun _ _ w => webhook w |}.

End Sim.

(** ** Runs and what is observed of them *)

(** The two source files, as one family of programs. *)
Inductive Variant := MainGoV | Part000V.

Definition program (v : Variant) {W} (P : Platform W) : Prog W Termination :=
  match v with
  | MainGoV => MainGo.main P
  | Part000V => Part000.main P
  end.

Definition result {W A} (r : A * W * list Event) : A := fst (fst r).
Definition final {W A} (r : A * W * list Event) : W := snd (fst r).
Definition trace {W A} (r : A * W * list Event) : list Event := snd r.

Definition Fn_eqb (f g : Fn) : bool :=
  match f, g with
  | F_loadConfig, F_loadConfig | F_saveConfig, F_saveConfig
  | F_getRemoteHash, F_getRemoteHash | F_getLocalHash, F_getLocalHash
  | F_isRepoClean, F_isRepoClean | F_pullRepo, F_pullRepo
  | F_rebuildNixOS, F_rebuildNixOS | F_sendDiscord, F_sendDiscord
  | F_isGitRepo, F_isGitRepo => true
  | _, _ => false
  end.

(** How many times [f] was entered. *)
Fixpoint calls (f : Fn) (t : list Event) : nat :=
  match t with
  | [] => 0
  | EvCall g :: t' => if Fn_eqb f g then S (calls f t') else calls f t'
  | _ :: t' => calls f t'
  end.

(** What [f] returned, call after call. *)
Fixpoint returns (f : Fn) (t : list Event) : list Ret :=
  match t with
  | [] => []
  | EvRet g r :: t' => if Fn_eqb f g then r :: returns f t' else returns f t'
  | _ :: t' => returns f t'
  end.

(** The messages handed to the webhook, with their endpoint. *)
Fixpoint notifications (t : list Event) : list (string * string) :=
  match t with
  | [] => []
  | EvPost url message :: t' => (url, message) :: notifications t'
  | _ :: t' => notifications t'
  end.

(** The child processes started: every VCS and rebuild call is one. *)
Fixpoint commands (t : list Event) : list (list string) :=
  match t with
  | [] => []
  | EvExec argv :: t' => argv :: commands t'
  | _ :: t' => commands t'
  end.

(** The configurations handed to the encoder, that is, written back. *)
Fixpoint persisted (t : list Event) : list Config :=
  match t with
  | [] => []
  | EvEncode _ cfg :: t' => cfg :: persisted t'
  | _ :: t' => persisted t'
  end.

(** The part of a trace before [f] is first entered (all of it when [f]
    never is). *)
Fixpoint before_call (f : Fn) (t : list Event) : list Event :=
  match t with
  | [] => []
  | EvCall g :: t' => if Fn_eqb f g then [] else EvCall g :: before_call f t'
  | e :: t' => e :: before_call f t'
  end.



(** *** The stages of the pipeline *)

Inductive Stage :=
| Validator | CleanlinessCheck | RemoteResolution | LocalResolution | Sync | Rebuild.

Definition stage_fn (s : Stage) : Fn :=
  match s with
  | Validator => F_isGitRepo
  | CleanlinessCheck => F_isRepoClean
  | RemoteResolution => F_getRemoteHash
  | LocalResolution => F_getLocalHash
  | Sync => F_pullRepo
  | Rebuild => F_rebuildNixOS
  end.

(** The stage failed in the run: the validator answered [false], any other
    stage returned the error [cause]. *)
Definition stage_failed (s : Stage) (cause : string) (t : list Event) : Prop :=
  match s with
  | Validator => cause = "" /\ In (RetBool false) (returns F_isGitRepo t)
  | _ => In (RetErr cause) (returns (stage_fn s) t)
  end.

(** The functions of the stages that come after [s], persistence included. *)
Definition later_stages (s : Stage) : list Fn :=
  match s with
  | Validator =>
      [F_isRepoClean; F_getRemoteHash; F_getLocalHash; F_pullRepo; F_rebuildNixOS;
       F_saveConfig]
  | CleanlinessCheck =>
      [F_getRemoteHash; F_getLocalHash; F_pullRepo; F_rebuildNixOS; F_saveConfig]
  | RemoteResolution => [F_getLocalHash; F_pullRepo; F_rebuildNixOS; F_saveConfig]
  | LocalResolution => [F_pullRepo; F_rebuildNixOS; F_saveConfig]
  | Sync => [F_rebuildNixOS; F_saveConfig]
  | Rebuild => [F_saveConfig]
  end.

(** The words by which a notification names the stage that failed. *)
Definition stage_words (s : Stage) : string :=
  match s with
  | Validator => "is not a Git repo"
  | CleanlinessCheck => "Failed to check Git status"
  | RemoteResolution => "Failed to get remote hash"
  | LocalResolution => "Failed to get local hash"
  | Sync => "Failed to pull repo"
  | Rebuild => "NixOS rebuild failed"
  end.

(** The notification [main] sends when stage [s] fails. *)
Definition failure_notice (s : Stage) (repoPath hostname cause : string) : string :=
  match s with
  | Validator => "Repo path `" ++ repoPath ++ "` on `" ++ hostname ++ "` " ++ stage_words s
  | _ => stage_words s ++ " on `" ++ hostname ++ "`: " ++ cause
  end.

(** How the run ends when stage [s] fails. *)
Definition failure_exit (s : Stage) (cause : string) : Termination :=
  match s with
  | Validator => Fatal NotAVCSRepo
  | CleanlinessCheck => Returned (StatusQueryError cause)
  | RemoteResolution => Returned (ComparatorFailure Remote cause)
  | LocalResolution => Returned (ComparatorFailure Local cause)
  | Sync => Returned (SyncFailure cause)
  | Rebuild => Returned (RebuildFailure cause)
  end.

(** *** Properties of a run, as the claims word them *)

Definition Run (W : Type) : Type := Termination * W * list Event.

(** Both tips were resolved, to the same identifier. *)
Definition tips_equal (t : list Event) : Prop :=
  exists h, In (RetStr h) (returns F_getRemoteHash t)
            /\ In (RetStr h) (returns F_getLocalHash t).

(** Both tips were resolved, to different identifiers. *)
Definition tips_differ (remoteHash : string) (t : list Event) : Prop :=
  In (RetStr remoteHash) (returns F_getRemoteHash t)
  /\ exists localHash, In (RetStr localHash) (returns F_getLocalHash t)
                       /\ remoteHash <> localHash.

(** The run ended as a no-op: outcome [NoChange], the log line, no
    notification, and no sync, rebuild or persistence. *)
Definition ends_quietly {W} (r : Run W) : Prop :=
  result r = Returned NoChange
  /\ In (EvLog "No changes detected.") (trace r)
  /\ calls F_sendDiscord (trace r) = 0
  /\ notifications (trace r) = []
  /\ calls F_pullRepo (trace r) = 0
  /\ calls F_rebuildNixOS (trace r) = 0
  /\ calls F_saveConfig (trace r) = 0.

(** The Notifier was called exactly once, with [message repoPath hostname]
    for the loaded configuration's webhook. *)
Definition sole_notice {W} (r : Run W) (message : string -> string -> string) : Prop :=
  calls F_sendDiscord (trace r) = 1
  /\ exists cfg hostname,
       In (RetCfg cfg) (returns F_loadConfig (trace r))
       /\ notifications (trace r)
          = [(DiscordWebhook cfg, message (RepoPath cfg) hostname)].

Definition not_a_repo_notice (repoPath hostname : string) : string :=
  "Repo path `" ++ repoPath ++ "` on `" ++ hostname ++ "` is not a Git repo".

Definition skipped_notice (repoPath hostname : string) : string :=
  "Repo at `" ++ repoPath ++ "` on `" ++ hostname
    ++ "` has uncommitted changes. Skipping rebuild.".

Definition success_notice (_ hostname : string) : string :=
  "NixOS rebuild successful on `" ++ hostname ++ "`.".

(** None of the functions [fs] was entered. *)
Definition never_entered (fs : list Fn) (t : list Event) : Prop :=
  Forall (fun f => calls f t = 0) fs.

(** The only child processes started were status queries. *)
Definition only_status_queries (t : list Event) : Prop :=
  Forall (fun argv => exists repoPath,
            argv = ["git"; "-C"; repoPath; "status"; "--porcelain"]) (commands t).

(** C7 as the specification words it: a fatal exit only when the validator
    fails, and every failing stage other than it notifies and returns. *)
Definition fatal_only_when_validation_fails {W} (r : Run W) : Prop :=
  (forall o, result r = Fatal o -> In (RetBool false) (returns F_isGitRepo (trace r)))
  /\ (forall s cause, s <> Validator -> stage_failed s cause (trace r) ->
        calls F_sendDiscord (trace r) = 1 /\ exists o, result r = Returned o).

(** C7 as the code has it: the two fatal exits. *)
Definition fatal_exit_cases {W} (r : Run W) (o : RunOutcome) : Prop :=
  (exists cause, o = ConfigurationError cause
                 /\ In (RetErr cause) (returns F_loadConfig (trace r))
                 /\ calls F_isGitRepo (trace r) = 0
                 /\ calls F_sendDiscord (trace r) = 0)
  \/ (o = NotAVCSRepo
      /\ In (RetBool false) (returns F_isGitRepo (trace r))
      /\ calls F_sendDiscord (trace r) = 1).


(** *** The comparator step, for the comparison of the two variants *)

(** The two resolution calls of [main], in [main]'s order; the tips when
    both succeed. *)
Definition resolveTips (v : Variant) {W} (P : Platform W) (repoPath branch : string)
    : Prog W (option (string * string)) :=
  let* remote :=
    match v with
    | MainGoV => MainGo.getRemoteHash P repoPath branch
    | Part000V => Part000.getRemoteHash P repoPath branch
    end in
  match remote with
  | Err _ => ret None
  | Ok remoteHash =>
      let* loc :=
        match v with
        | MainGoV => MainGo.getLocalHash P repoPath branch
        | Part000V => Part000.getLocalHash P repoPath
        end in
      match loc with
      | Err _ => ret None
      | Ok localHash => ret (Some (remoteHash, localHash))
      end
  end.


(** The remote does not change during the run: it looks the same at every
    contact. *)
Definition remote_stable (w : Sim.World) : Prop :=
  forall n m, Sim.origin w n = Sim.origin w m.



(** The remote does not change during the run, in the weaker sense that
    leaves its reachability open: whenever it answers, it shows the same
    branches. *)
Definition remote_unchanged (w : Sim.World) : Prop :=
  forall n m r1 r2, Sim.origin w n = Some r1 -> Sim.origin w m = Some r2 -> r1 = r2.




(** ** Sample worlds *)

Module Sample.
Import Sim.

Definition aaa111 : Oid := mkOid xa [xa; xa; x1; x1; x1].
Definition bbb222 : Oid := mkOid xb [xb; xb; x2; x2; x2].

Definition cfg : Config :=
  mkConfig "git@example.org:infra/nixos.git" "main" "/etc/nixos"
           "https://discord.example/api/webhooks/1" "".

(** The configuration file, at the place each variant reads it. *)
Definition etc : gmap string Node :=
  {[ "config.json" := Regular (encode_text cfg);
     "/etc/nix-config-manager.json" := Regular (encode_text cfg) ]}.

Definition world (fs : gmap string Node) (root : string) (hs : gmap string Oid)
    (lines : list string) (remote : nat -> option (gmap string Oid))
    (rb : option string) : World :=
  {| files := fs; hostname := Some "web1"; readonly := false; repo_root := root;
     head := OnBranch "main"; heads := hs; tracking := {[ "main" := aaa111 ]};
     porcelain := lines; origin := remote; contacts := 0; rebuild := rb;
     webhook := None |}.

Definition checkout : gmap string Node := <[ "/etc/nixos/.git" := Directory ]> etc.
Definition at_aaa : gmap string Oid := {[ "main" := aaa111 ]}.
Definition remote_at (o : Oid) : nat -> option (gmap string Oid) :=
  fun _ => Some {[ "main" := o ]}.
(** The remote answers the first [n] contacts and is unreachable after. *)
Definition remote_until (n : nat) (o : Oid) : nat -> option (gmap string Oid) :=
  fun k => if Nat.ltb k n then Some {[ "main" := o ]} else None.

(** Remote ahead of a clean checkout: the run that rebuilds. *)
Definition behind : World := world checkout "/etc/nixos" at_aaa [] (remote_at bbb222) None.
(** Nothing new on the remote. *)
Definition up_to_date : World := world checkout "/etc/nixos" at_aaa [] (remote_at aaa111) None.
(** No configuration file at all. *)
Definition unconfigured : World := world ∅ "/etc/nixos" at_aaa [] (remote_at bbb222) None.
(** The configured path has no [.git]. *)
Definition no_repo : World := world etc "/etc/nixos" at_aaa [] (remote_at bbb222) None.
(** [.git] is a regular file, as in a linked worktree. *)
Definition worktree : World :=
  world (<[ "/etc/nixos/.git" := Regular "gitdir: /srv/nixos.git/worktrees/nixos" ]> etc)
        "/etc/nixos" at_aaa [] (remote_at bbb222) None.
(** A [.git] directory git cannot use: the status query fails. *)
Definition broken : World := world checkout "/srv/elsewhere" at_aaa [] (remote_at bbb222) None.
(** Uncommitted local work. *)
Definition dirty : World :=
  world checkout "/etc/nixos" at_aaa [" M configuration.nix"] (remote_at bbb222) None.
(** The remote cannot be reached. *)
Definition offline : World := world checkout "/etc/nixos" at_aaa [] (fun _ => None) None.
(** The branch has no commit yet: the local tip does not resolve. *)
Definition unborn : World := world checkout "/etc/nixos" ∅ [] (remote_at bbb222) None.
(** The remote goes away after [n] contacts. *)
Definition dropping (n : nat) : World :=
  world checkout "/etc/nixos" at_aaa [] (remote_until n bbb222) None.
(** The rebuild fails. *)
Definition unbuildable : World :=
  world checkout "/etc/nixos" at_aaa [] (remote_at bbb222) (Some "exit status 1").
(** [HEAD] detached at another commit than the tracked branch. *)
Definition detached : World :=
  mkWorld checkout (Some "web1") false "/etc/nixos" (Detached bbb222) at_aaa
          {[ "main" := aaa111 ]} [] (remote_at bbb222) 0 None None.
(** The remote has a second branch whose name ends in [/main], at the
    commit checked out here, while its [main] is ahead. *)
Definition forked : World :=
  world checkout "/etc/nixos" at_aaa []
        (fun _ => Some {[ "main" := bbb222; "dev/main" := aaa111 ]}) None.
(** A local branch is called [origin/main]. *)
Definition shadowed : World :=
  world checkout "/etc/nixos" {[ "main" := aaa111; "origin/main" := aaa111 ]} []
        (remote_at bbb222) None.
(** The configuration cannot be written back. *)
Definition sealed : World :=
  mkWorld checkout (Some "web1") true "/etc/nixos" (OnBranch "main") at_aaa
          {[ "main" := aaa111 ]} [] (remote_at bbb222) 0 None None.
End Sample.

(** ** Further notions, for the properties beyond the claims *)

(** A string of white space only (the empty string included). *)
Definition allSpace (s : string) : bool := forallb space (pieces s).

(** A string without any white space. *)
Definition noSpace (s : string) : bool := forallb (fun p => negb (space p)) (pieces s).

(** A field as [strings.Fields] delivers them. *)
Definition token (f : string) : Prop := f <> "" /\ noSpace f = true.


(** The host name [main] puts in its messages. *)
Definition effective_hostname {W} (P : Platform W) (w : W) : string :=
  match os_Hostname P w with
  | Ok h => h
  | Err _ => "unknown-host"
  end.

(** The message [main] sends at each of its exits, if any. *)
Definition notice_for (t : Termination) (repoPath hostname : string) : option string :=
  match t with
  | Fatal NotAVCSRepo => Some (not_a_repo_notice repoPath hostname)
  | Returned (StatusQueryError e) =>
      Some (failure_notice CleanlinessCheck repoPath hostname e)
  | Returned DirtyWorkingTree => Some (skipped_notice repoPath hostname)
  | Returned (ComparatorFailure Remote e) =>
      Some (failure_notice RemoteResolution repoPath hostname e)
  | Returned (ComparatorFailure Local e) =>
      Some (failure_notice LocalResolution repoPath hostname e)
  | Returned (SyncFailure e) => Some (failure_notice Sync repoPath hostname e)
  | Returned (RebuildFailure e) => Some (failure_notice Rebuild repoPath hostname e)
  | Returned Success => Some (success_notice repoPath hostname)
  | _ => None
  end.

(** The destructive command of [pullRepo]. *)
Definition hard_reset (repoPath target : string) : list string :=
  ["git"; "-C"; repoPath; "reset"; "--hard"; target].

(** The files opened for reading, and those created or written. *)
Fixpoint files_opened (t : list Event) : list string :=
  match t with
  | [] => []
  | EvOpen path :: t' => path :: files_opened t'
  | _ :: t' => files_opened t'
  end.

Fixpoint files_written (t : list Event) : list string :=
  match t with
  | [] => []
  | EvCreate path :: t' => path :: files_written t'
  | EvEncode path _ :: t' => path :: files_written t'
  | _ :: t' => files_written t'
  end.

(** Every command line either variant can issue for a configuration. *)
Definition known_commands (cfg : Config) : list (list string) :=
  [ ["git"; "-C"; RepoPath cfg; "status"; "--porcelain"];
    ["git"; "-C"; RepoPath cfg; "ls-remote"; "origin"; Branch cfg];
    ["git"; "-C"; RepoPath cfg; "fetch"; "origin"; Branch cfg];
    ["git"; "-C"; RepoPath cfg; "rev-parse"; Branch cfg];
    ["git"; "-C"; RepoPath cfg; "rev-parse"; "origin/" ++ Branch cfg];
    ["git"; "-C"; RepoPath cfg; "rev-parse"; "HEAD"];
    ["git"; "-C"; RepoPath cfg; "reset"; "--hard"; "origin/" ++ Branch cfg];
    ["nixos-rebuild"; "switch"] ].

(** The same platform with another JSON decoder. *)
Definition with_decode {W} (P : Platform W) (decode : string -> Res Config) : Platform W :=
  {| os_Open := os_Open P; json_Decode := decode;
     os_Create := os_Create P; json_Encode := json_Encode P;
     os_Hostname := os_Hostname P; os_Stat := os_Stat P;
     exec_Command := exec_Command P; http_Post := http_Post P |}.

(** A loaded configuration with its stored revision replaced by [h]. *)
Definition revision_replaced (h : string) (r : Res Config) : Res Config :=
  match r with
  | Ok cfg => Ok (set_LastCommitHash h cfg)
  | Err e => Err e
  end.

(** The decoder of [P], with the stored revision replaced by [h]. *)
Definition decode_with_revision {W} (P : Platform W) (h : string) (data : string)
    : Res Config :=
  revision_replaced h (json_Decode P data).

(** A trace without what [loadConfig] returned. *)
Fixpoint besides_loaded (t : list Event) : list Event :=
  match t with
  | [] => []
  | EvRet F_loadConfig _ :: t' => besides_loaded t'
  | e :: t' => e :: besides_loaded t'
  end.

(** The simulated checkout after [git reset --hard] to [o]. *)
Definition reset_to (o : Sim.Oid) (w : Sim.World) : Sim.World :=
  let kept := filter (fun l => Sim.untracked l = true) (Sim.porcelain w) in
  match Sim.head w with
  | Sim.OnBranch hb => Sim.set_checkout (Sim.OnBranch hb) (<[hb := o]> (Sim.heads w)) kept w
  | Sim.Detached _ => Sim.set_checkout (Sim.Detached o) (Sim.heads w) kept w
  end.

(** The simulated world a successful [pullRepo] of [b] leaves when the
    remote's tip is [o]. *)
Definition pulled (b : string) (o : Sim.Oid) (w : Sim.World) : Sim.World :=
  reset_to o (Sim.set_tracking (<[b := o]> (Sim.tracking w))
                (Sim.set_contacts (S (Sim.contacts w)) w)).

(** A dirty checkout on a machine whose host name cannot be read. *)
Definition nameless : Sim.World :=
  Sim.mkWorld Sample.checkout None false "/etc/nixos" (Sim.OnBranch "main") Sample.at_aaa
              {[ "main" := Sample.aaa111 ]} [" M configuration.nix"]
              (Sample.remote_at Sample.bbb222) 0 None None.

(** * Proofs *)

(** ** Running [main] against an arbitrary platform

    [main] is a straight line with early exits, so a run is decided by what
    the platform answers to each call.  [run_program] splits on every
    answer in turn; each goal it leaves is one complete path through
    [main], with its trace written out. *)

Arguments Fields : simpl never.
Arguments TrimSpace : simpl never.

Ltac unfold_prog :=
  unfold program, MainGo.main, MainGo.loadConfig, MainGo.getRemoteHash,
    MainGo.getLocalHash, Part000.main, Part000.loadConfig, Part000.saveConfig,
    Part000.getRemoteHash, Part000.getLocalHash, isGitRepo, isRepoClean, pullRepo,
    rebuildNixOS, sendDiscord, traced, Fatalf, Printf, Open, Create, Encode,
    Hostname, Stat, Command, Post, bind, ret, emit, show_bool, show_error, show_res.

Ltac norm := repeat (progress (unfold_prog; cbn)).

Ltac answer :=
  match goal with
  | |- context [os_Open ?P ?a ?w] => destruct (os_Open P a w) as [?data|?err] eqn:?
  | |- context [json_Decode ?P ?d] => destruct (json_Decode P d) as [?cfg|?err] eqn:?
  | |- context [os_Hostname ?P ?w] => destruct (os_Hostname P w) as [?host|?err] eqn:?
  | |- context [os_Stat ?P ?a ?w] => destruct (os_Stat P a w) as [[[|]]|?err] eqn:?
  | |- context [exec_Command ?P ?a ?w] =>
      destruct (exec_Command P a w) as [[?out [?err|]] ?w] eqn:?
  | |- context [http_Post ?P ?u ?m ?w] => destruct (http_Post P u m w) as [?err|] eqn:?
  | |- context [os_Create ?P ?a ?w] => destruct (os_Create P a w) as [[?err|] ?w] eqn:?
  | |- context [json_Encode ?P ?a ?c ?w] =>
      destruct (json_Encode P a c w) as [[?err|] ?w] eqn:?
  | |- context [Fields ?s] => destruct (Fields s) as [|?part0 ?parts] eqn:?
  | |- context [String.eqb ?a ?b] => destruct (String.eqb_spec a b)
  end; norm.

(** The claim about the run is set aside as [Claim] while the program runs,
    and comes back at the end of each path. *)
Ltac run_on r :=
  pattern r;
  match goal with
  | |- ?Q _ =>
      let Claim := fresh "Claim" in
      let Giveback := fresh "Giveback" in
      set (Claim := Q);
      assert (Giveback : forall r', Q r' -> Claim r') by (intros ? HQ; exact HQ);
      clearbody Claim;
      norm; repeat answer; apply Giveback; clear Giveback Claim; cbn
  end.

Ltac run_program v P w :=
  destruct v; [run_on (program MainGoV P w) | run_on (program Part000V P w)].

(** What is left of [In x l] on a written-out list. *)
Ltac sift :=
  repeat match goal with
         | H : _ /\ _ |- _ => destruct H
         | H : exists _, _ |- _ => destruct H
         | H : _ \/ _ |- _ => destruct H
         | H : False |- _ => destruct H
         | H : RetStr _ = RetStr _ |- _ => injection H as H; subst
         | H : RetErr _ = RetErr _ |- _ => injection H as H; subst
         | H : RetCfg _ = RetCfg _ |- _ => injection H as H; subst
         | H : _ = _ |- _ => discriminate H
         end.

(** Membership in a written-out list. *)
Ltac found := solve [ repeat (first [ left; reflexivity | right ]) ].

(** ** C1: equal tips end the run quietly *)

(** C1. In every run, of either variant and on any platform, in which the
    remote tip and the local tip resolve to the same identifier, the run ends
    with outcome [NoChange] after logging "No changes detected.": the
    Notifier is never called, nothing is posted, and [pullRepo],
    [rebuildNixOS] and [saveConfig] are never entered. *)
Theorem C1_equal_tips_end_quietly :
  forall (v : Variant) (W : Type) (P : Platform W) (w : W),
    tips_equal (trace (program v P w)) -> ends_quietly (program v P w).
Proof.
  intros v W P w.
  run_program v P w;
    unfold tips_equal, ends_quietly; cbn; intros Heq; sift;
    try contradiction; repeat split; first [ reflexivity | found ].
Qed.

Lemma C1_witness :
  (tips_equal (trace (program MainGoV Sim.platform Sample.up_to_date))
   /\ ends_quietly (program MainGoV Sim.platform Sample.up_to_date))
  /\ (tips_equal (trace (program Part000V Sim.platform Sample.up_to_date))
      /\ ends_quietly (program Part000V Sim.platform Sample.up_to_date)).
Proof.
  assert (A : tips_equal (trace (program MainGoV Sim.platform Sample.up_to_date))).
  { exists "aaa111". vm_compute. auto. }
  assert (B : tips_equal (trace (program Part000V Sim.platform Sample.up_to_date))).
  { exists "aaa111". vm_compute. auto. }
  split; (split; [assumption|]).
  - exact (C1_equal_tips_end_quietly MainGoV _ _ _ A).
  - exact (C1_equal_tips_end_quietly Part000V _ _ _ B).
Defined.





(** Two runs in a row on the simulated machine: the first applies the new
    revision, the second finds nothing to do. *)
Example second_run_is_quiet :
  forall v,
    result (program v Sim.platform Sample.behind) = Returned Success
    /\ ends_quietly (program v Sim.platform (final (program v Sim.platform Sample.behind))).
Proof.
  intros []; (split; [vm_compute; reflexivity |]);
    unfold ends_quietly; vm_compute; repeat split; auto 50.
Qed.

(** ** C2: a failing stage notifies once and stops the pipeline *)

Ltac none_entered := cbn; repeat (constructor; [reflexivity|]); constructor.

Ltac one_notice :=
  split; [reflexivity | eexists _, _; split; [found | reflexivity]].

(** C2. In every run, of either variant and on any platform, in which one of
    the stages validator, cleanliness check, remote resolution, local
    resolution, sync or rebuild fails, the Notifier is called exactly once;
    its message is the failure notice of that stage (and of no other stage),
    carrying the cause; the run ends at that stage's exit; and no later
    stage, persistence included, is entered. *)
Theorem C2_failing_stage_notifies_once_and_stops :
  forall (v : Variant) (W : Type) (P : Platform W) (w : W) (s : Stage) (cause : string),
    stage_failed s cause (trace (program v P w)) ->
    sole_notice (program v P w) (fun repoPath hostname =>
                                   failure_notice s repoPath hostname cause)
    /\ (forall url s' p h c,
          In (url, failure_notice s' p h c) (notifications (trace (program v P w))) ->
          s' = s)
    /\ result (program v P w) = failure_exit s cause
    /\ never_entered (later_stages s) (trace (program v P w)).
Proof.
  intros v W P w s cause.
  run_program v P w;
    intros Hfail; destruct s; cbn in Hfail; sift;
    (split; [one_notice | split; [| split; [reflexivity | none_entered]]]);
    cbn; intros url s' p h c [E|[]]; injection E as _ E;
    destruct s'; cbn in E; first [ reflexivity | discriminate E ].
Qed.

Lemma C2_witness :
  let fails v w s cause :=
    stage_failed s cause (trace (program v Sim.platform w))
    /\ result (program v Sim.platform w) = failure_exit s cause in
  fails MainGoV Sample.no_repo Validator ""
  /\ fails Part000V Sample.broken CleanlinessCheck "exit status 128"
  /\ fails MainGoV Sample.offline RemoteResolution
        "failed to get remote hash: exit status 128"
  /\ fails Part000V Sample.unborn LocalResolution "exit status 128"
  /\ fails Part000V (Sample.dropping 1) Sync "git command failed: exit status 128"
  /\ fails MainGoV Sample.unbuildable Rebuild "exit status 1".
Proof.
  cbv zeta.
  assert (F1 : stage_failed Validator ""
                 (trace (program MainGoV Sim.platform Sample.no_repo)))
    by (vm_compute; auto).
  assert (F2 : stage_failed CleanlinessCheck "exit status 128"
                 (trace (program Part000V Sim.platform Sample.broken)))
    by (vm_compute; auto).
  assert (F3 : stage_failed RemoteResolution "failed to get remote hash: exit status 128"
                 (trace (program MainGoV Sim.platform Sample.offline)))
    by (vm_compute; auto).
  assert (F4 : stage_failed LocalResolution "exit status 128"
                 (trace (program Part000V Sim.platform Sample.unborn)))
    by (vm_compute; auto).
  assert (F5 : stage_failed Sync "git command failed: exit status 128"
                 (trace (program Part000V Sim.platform (Sample.dropping 1))))
    by (vm_compute; auto).
  assert (F6 : stage_failed Rebuild "exit status 1"
                 (trace (program MainGoV Sim.platform Sample.unbuildable)))
    by (vm_compute; auto).
  split; [split; [exact F1 | exact (proj1 (proj2 (proj2
    (C2_failing_stage_notifies_once_and_stops _ _ _ _ _ _ F1))))] |].
  split; [split; [exact F2 | exact (proj1 (proj2 (proj2
    (C2_failing_stage_notifies_once_and_stops _ _ _ _ _ _ F2))))] |].
  split; [split; [exact F3 | exact (proj1 (proj2 (proj2
    (C2_failing_stage_notifies_once_and_stops _ _ _ _ _ _ F3))))] |].
  split; [split; [exact F4 | exact (proj1 (proj2 (proj2
    (C2_failing_stage_notifies_once_and_stops _ _ _ _ _ _ F4))))] |].
  split; [split; [exact F5 | exact (proj1 (proj2 (proj2
    (C2_failing_stage_notifies_once_and_stops _ _ _ _ _ _ F5))))] |].
  split; [exact F6 | exact (proj1 (proj2 (proj2
    (C2_failing_stage_notifies_once_and_stops _ _ _ _ _ _ F6))))].
Defined.

(** ** C3: a dirty tree is left alone *)

(** C3. In every run, of either variant and on any platform, in which the
    cleanliness check succeeds and reports the tree dirty, neither [pullRepo]
    nor [rebuildNixOS] is entered (no process other than the status query is
    started at all), the Notifier is called exactly once, with the message
    that the rebuild is skipped, and the outcome is [DirtyWorkingTree]. *)
Theorem C3_dirty_tree_skips_sync_and_rebuild :
  forall (v : Variant) (W : Type) (P : Platform W) (w : W),
    In (RetBool false) (returns F_isRepoClean (trace (program v P w))) ->
    never_entered [F_pullRepo; F_rebuildNixOS] (trace (program v P w))
    /\ only_status_queries (trace (program v P w))
    /\ sole_notice (program v P w) skipped_notice
    /\ result (program v P w) = Returned DirtyWorkingTree.
Proof.
  intros v W P w.
  run_program v P w; intros Hdirty; sift;
    (split; [none_entered | split; [| split; [one_notice | reflexivity]]]);
    unfold only_status_queries; cbn; repeat constructor; eexists; reflexivity.
Qed.

Lemma C3_witness :
  In (RetBool false) (returns F_isRepoClean (trace (program MainGoV Sim.platform Sample.dirty)))
  /\ result (program MainGoV Sim.platform Sample.dirty) = Returned DirtyWorkingTree
  /\ In (RetBool false)
        (returns F_isRepoClean (trace (program Part000V Sim.platform Sample.dirty)))
  /\ result (program Part000V Sim.platform Sample.dirty) = Returned DirtyWorkingTree.
Proof.
  assert (A : In (RetBool false)
                (returns F_isRepoClean (trace (program MainGoV Sim.platform Sample.dirty))))
    by (vm_compute; auto).
  assert (B : In (RetBool false)
                (returns F_isRepoClean (trace (program Part000V Sim.platform Sample.dirty))))
    by (vm_compute; auto).
  split; [exact A |].
  split; [exact (proj2 (proj2 (proj2 (C3_dirty_tree_skips_sync_and_rebuild _ _ _ _ A)))) |].
  split; [exact B |].
  exact (proj2 (proj2 (proj2 (C3_dirty_tree_skips_sync_and_rebuild _ _ _ _ B)))).
Defined.

(** ** C4: not a repository *)

(** C4. In every run, of either variant and on any platform, in which the
    Repository Validator returns false, the Notifier is called exactly once,
    with the "is not a Git repo" message for the configured path, no child
    process (VCS or rebuild) is started, and the run ends at the
    [NotAVCSRepo] exit. *)
Theorem C4_not_a_repository_notifies_once :
  forall (v : Variant) (W : Type) (P : Platform W) (w : W),
    In (RetBool false) (returns F_isGitRepo (trace (program v P w))) ->
    sole_notice (program v P w) not_a_repo_notice
    /\ commands (trace (program v P w)) = []
    /\ result (program v P w) = Fatal NotAVCSRepo.
Proof.
  intros v W P w.
  run_program v P w; intros Hno; sift;
    (split; [one_notice | split; reflexivity]).
Qed.

Lemma C4_witness :
  In (RetBool false) (returns F_isGitRepo (trace (program MainGoV Sim.platform Sample.no_repo)))
  /\ sole_notice (program MainGoV Sim.platform Sample.no_repo) not_a_repo_notice
  /\ In (RetBool false)
        (returns F_isGitRepo (trace (program Part000V Sim.platform Sample.no_repo)))
  /\ sole_notice (program Part000V Sim.platform Sample.no_repo) not_a_repo_notice.
Proof.
  assert (A : In (RetBool false)
                (returns F_isGitRepo (trace (program MainGoV Sim.platform Sample.no_repo))))
    by (vm_compute; auto).
  assert (B : In (RetBool false)
                (returns F_isGitRepo (trace (program Part000V Sim.platform Sample.no_repo))))
    by (vm_compute; auto).
  split; [exact A |].
  split; [exact (proj1 (C4_not_a_repository_notifies_once _ _ _ _ A)) |].
  split; [exact B |].
  exact (proj1 (C4_not_a_repository_notifies_once _ _ _ _ B)).
Defined.

(** ** C5: what is persisted, and when *)

(** C5. In every run of [part_000], on any platform: (1) whenever a
    configuration is written back, the remote tip differed from the local
    tip, [pullRepo] and [rebuildNixOS] both returned without error before
    [saveConfig] was entered, and the configuration written (once) is the
    loaded one with [LastCommitHash] set to the remote tip that
    [getRemoteHash] returned at comparison time; (2) when the remote tip
    [remoteHash] differs from the local tip and sync and rebuild succeed,
    [saveConfig] is entered exactly once and whatever it writes carries
    [remoteHash] as its revision. *)
Theorem C5_persisted_revision_is_remote_tip :
  forall (W : Type) (P : Platform W) (w : W),
    (forall written,
       In written (persisted (trace (Part000.main P w))) ->
       exists cfg remoteHash,
         In (RetCfg cfg) (returns F_loadConfig (trace (Part000.main P w)))
         /\ tips_differ remoteHash (trace (Part000.main P w))
         /\ written = set_LastCommitHash remoteHash cfg
         /\ persisted (trace (Part000.main P w)) = [written]
         /\ returns F_pullRepo (before_call F_saveConfig (trace (Part000.main P w)))
            = [RetNil]
         /\ returns F_rebuildNixOS (before_call F_saveConfig (trace (Part000.main P w)))
            = [RetNil])
    /\ (forall remoteHash,
          tips_differ remoteHash (trace (Part000.main P w)) ->
          In RetNil (returns F_pullRepo (trace (Part000.main P w))) ->
          In RetNil (returns F_rebuildNixOS (trace (Part000.main P w))) ->
          calls F_saveConfig (trace (Part000.main P w)) = 1
          /\ forall written,
               In written (persisted (trace (Part000.main P w))) ->
               LastCommitHash written = remoteHash).
Proof.
  intros W P w.
  run_on (Part000.main P w); split.
  all: try (intros written Hw; sift; subst;
            eexists _, _; unfold tips_differ; cbn;
            (split; [found |]);
            (split; [split; [found | eexists; split; [found | eassumption]] |]);
            repeat split; reflexivity).
  all: unfold tips_differ; cbn; intros remoteHash Hd Hp Hb; sift;
    (split; [reflexivity | intros written Hw; sift; subst; reflexivity]).
Qed.

Lemma C5_witness :
  (In (set_LastCommitHash "bbb222" Sample.cfg)
      (persisted (trace (Part000.main Sim.platform Sample.behind)))
   /\ persisted (trace (Part000.main Sim.platform Sample.behind))
      = [set_LastCommitHash "bbb222" Sample.cfg])
  /\ (tips_differ "bbb222" (trace (Part000.main Sim.platform Sample.behind))
      /\ In RetNil (returns F_pullRepo (trace (Part000.main Sim.platform Sample.behind)))
      /\ In RetNil (returns F_rebuildNixOS (trace (Part000.main Sim.platform Sample.behind)))
      /\ calls F_saveConfig (trace (Part000.main Sim.platform Sample.behind)) = 1).
Proof.
  assert (A : In (set_LastCommitHash "bbb222" Sample.cfg)
                (persisted (trace (Part000.main Sim.platform Sample.behind))))
    by (vm_compute; auto).
  assert (B : tips_differ "bbb222" (trace (Part000.main Sim.platform Sample.behind))).
  { split; [vm_compute; auto |].
    exists "aaa111". split; [vm_compute; auto | discriminate]. }
  assert (C : In RetNil (returns F_pullRepo (trace (Part000.main Sim.platform Sample.behind))))
    by (vm_compute; auto).
  assert (D : In RetNil
                (returns F_rebuildNixOS (trace (Part000.main Sim.platform Sample.behind))))
    by (vm_compute; auto).
  split.
  - split; [exact A |].
    destruct (proj1 (C5_persisted_revision_is_remote_tip _ Sim.platform Sample.behind) _ A)
      as (cfg & remoteHash & _ & _ & _ & E & _).
    exact E.
  - split; [exact B |]. split; [exact C |]. split; [exact D |].
    exact (proj1 (proj2 (C5_persisted_revision_is_remote_tip _ Sim.platform Sample.behind)
                    _ B C D)).
Defined.

(** The file the simulated machine is left with holds the remote tip. *)
Example persisted_file_holds_remote_tip :
  Sim.files (final (Part000.main Sim.platform Sample.behind)) !! "config.json"
  = Some (Sim.Regular (Sim.encode_text (set_LastCommitHash "bbb222" Sample.cfg))).
Proof. vm_compute. reflexivity. Qed.

(** ** C8: a failed write-back does not fail the run *)

(** C8. In every run of [part_000], on any platform, in which [saveConfig]
    returns an error, the rebuild had succeeded, the error is written to the
    log as "Failed to save config: ...", the outcome is [Success], and the
    one notification sent is the success message. *)
Theorem C8_persistence_failure_is_only_logged :
  forall (W : Type) (P : Platform W) (w : W) (cause : string),
    In (RetErr cause) (returns F_saveConfig (trace (Part000.main P w))) ->
    returns F_rebuildNixOS (before_call F_saveConfig (trace (Part000.main P w))) = [RetNil]
    /\ In (EvLog ("Failed to save config: " ++ cause)) (trace (Part000.main P w))
    /\ result (Part000.main P w) = Returned Success
    /\ sole_notice (Part000.main P w) success_notice.
Proof.
  intros W P w cause.
  run_on (Part000.main P w); intros Hs; sift;
    (split; [reflexivity | split; [found | split; [reflexivity | one_notice]]]).
Qed.

Lemma C8_witness :
  In (RetErr "failed to create config.json: open config.json: read-only file system")
     (returns F_saveConfig (trace (Part000.main Sim.platform Sample.sealed)))
  /\ result (Part000.main Sim.platform Sample.sealed) = Returned Success
  /\ sole_notice (Part000.main Sim.platform Sample.sealed) success_notice.
Proof.
  assert (A : In (RetErr "failed to create config.json: open config.json: read-only file system")
                (returns F_saveConfig (trace (Part000.main Sim.platform Sample.sealed))))
    by (vm_compute; auto).
  split; [exact A |].
  exact (proj2 (proj2 (C8_persistence_failure_is_only_logged _ _ _ _ A))).
Defined.

(** ** C7: the fatal exits *)

(** C7, as stated, fails: with no configuration file the process exits
    through [log.Fatalf] although the validator never ran, and nothing is
    notified. *)
Lemma C7_counterexample :
  ~ fatal_only_when_validation_fails (program MainGoV Sim.platform Sample.unconfigured).
Proof.
  intros [Hfatal _].
  specialize (Hfatal
    (ConfigurationError
       ("failed to open nix-config-manager.json: "
          ++ "open /etc/nix-config-manager.json: no such file or directory"))).
  assert (E : In (RetBool false)
                (returns F_isGitRepo
                   (trace (program MainGoV Sim.platform Sample.unconfigured)))).
  { apply Hfatal. vm_compute. reflexivity. }
  vm_compute in E. exact E.
Qed.

(** C7, amended. In every run, of either variant and on any platform, the
    process exits fatally exactly in two cases: the configuration could not
    be loaded (the validator is not reached and nothing is notified), or the
    validator returned false (after one notification).  A failure of any
    other stage is notified once and [main] returns. *)
Theorem C7_fatal_exits :
  forall (v : Variant) (W : Type) (P : Platform W) (w : W),
    (forall o, result (program v P w) = Fatal o <-> fatal_exit_cases (program v P w) o)
    /\ (forall s cause,
          s <> Validator -> stage_failed s cause (trace (program v P w)) ->
          calls F_sendDiscord (trace (program v P w)) = 1
          /\ result (program v P w) = failure_exit s cause
          /\ exists o, failure_exit s cause = Returned o).
Proof.
  intros v W P w.
  run_program v P w;
    (split;
     [ intros o; unfold fatal_exit_cases; cbn; split;
       [ intros E; first [ discriminate E | injection E as <- ];
         first [ left; eexists; repeat split; found
               | right; repeat split; found ]
       | intros H; sift; subst; reflexivity ]
     | intros s cause Hs Hfail; destruct s; try contradiction; cbn in Hfail; sift;
       repeat split; eexists; reflexivity ]).
Qed.

Lemma C7_witness :
  fatal_exit_cases (program Part000V Sim.platform Sample.unconfigured)
    (ConfigurationError "failed to open config.json: open config.json: no such file or directory")
  /\ fatal_exit_cases (program MainGoV Sim.platform Sample.no_repo) NotAVCSRepo
  /\ stage_failed Rebuild "exit status 1"
        (trace (program MainGoV Sim.platform Sample.unbuildable))
  /\ result (program MainGoV Sim.platform Sample.unbuildable)
     = Returned (RebuildFailure "exit status 1").
Proof.
  assert (A : result (program Part000V Sim.platform Sample.unconfigured)
              = Fatal (ConfigurationError
                  "failed to open config.json: open config.json: no such file or directory"))
    by (vm_compute; reflexivity).
  assert (B : result (program MainGoV Sim.platform Sample.no_repo) = Fatal NotAVCSRepo)
    by (vm_compute; reflexivity).
  assert (C : stage_failed Rebuild "exit status 1"
                (trace (program MainGoV Sim.platform Sample.unbuildable)))
    by (vm_compute; auto).
  assert (N : Rebuild <> Validator) by discriminate.
  split; [exact (proj1 (proj1 (C7_fatal_exits _ _ _ _) _) A) |].
  split; [exact (proj1 (proj1 (C7_fatal_exits _ _ _ _) _) B) |].
  split; [exact C |].
  exact (proj1 (proj2 (proj2 (C7_fatal_exits _ _ _ _) _ _ N C))).
Defined.

(** ** C10: the validator wants a [.git] directory *)

(** C10. On any platform, [isGitRepo] returns true exactly when [os.Stat] of
    [path/.git] succeeds and reports a directory.  When the entry exists but
    is not a directory (a regular file, as in a linked worktree or a
    submodule), [isGitRepo] returns false, and every run, of either variant,
    whose configured path is [path] is rejected: it ends at the
    [NotAVCSRepo] exit after the single "is not a Git repo" notification. *)
Theorem C10_validator_requires_git_directory :
  forall (W : Type) (P : Platform W) (w : W) (path : string),
    (result (isGitRepo P path w) = true
     <-> exists info, os_Stat P (path ++ "/.git") w = Ok info /\ IsDir info = true)
    /\ (forall info,
          os_Stat P (path ++ "/.git") w = Ok info -> IsDir info = false ->
          result (isGitRepo P path w) = false
          /\ forall v cfg,
               In (RetCfg cfg) (returns F_loadConfig (trace (program v P w))) ->
               RepoPath cfg = path ->
               result (program v P w) = Fatal NotAVCSRepo
               /\ sole_notice (program v P w) not_a_repo_notice).
Proof.
  intros W P w path. split; [| intros info Hstat Hfile; split].
  - unfold isGitRepo, traced, bind, Stat, ret, emit; cbn.
    destruct (os_Stat P (path ++ "/.git") w) as [info|err]; cbn.
    + split; [intros E; exists info; auto | intros [info' [E D]]; congruence].
    + split; [discriminate | intros [info' [E _]]; discriminate E].
  - unfold isGitRepo, traced, bind, Stat, ret, emit; cbn.
    rewrite Hstat; cbn. exact Hfile.
  - intros v cfg.
    run_program v P w; intros Hcfg Hpath; sift; subst;
      try (rewrite Hstat in *; discriminate);
      try (match goal with
           | H : os_Stat _ _ _ = Ok _ |- _ =>
               rewrite Hstat in H; injection H as ->; discriminate Hfile
           end);
      (split; [reflexivity | one_notice]).
Qed.

Lemma C10_witness :
  os_Stat Sim.platform ("/etc/nixos" ++ "/.git") Sample.worktree = Ok (mkFileInfo false)
  /\ result (isGitRepo Sim.platform "/etc/nixos" Sample.worktree) = false
  /\ result (program MainGoV Sim.platform Sample.worktree) = Fatal NotAVCSRepo
  /\ result (program Part000V Sim.platform Sample.worktree) = Fatal NotAVCSRepo.
Proof.
  assert (A : os_Stat Sim.platform ("/etc/nixos" ++ "/.git") Sample.worktree
              = Ok (mkFileInfo false)) by (vm_compute; reflexivity).
  assert (B : In (RetCfg Sample.cfg)
                (returns F_loadConfig (trace (program MainGoV Sim.platform Sample.worktree))))
    by (vm_compute; auto).
  assert (C : In (RetCfg Sample.cfg)
                (returns F_loadConfig (trace (program Part000V Sim.platform Sample.worktree))))
    by (vm_compute; auto).
  split; [exact A |].
  split; [exact (proj1 (proj2 (C10_validator_requires_git_directory _ _ _ _) _ A eq_refl)) |].
  split.
  - exact (proj1 (proj2 (proj2 (C10_validator_requires_git_directory _ _ _ _) _ A eq_refl)
                   MainGoV _ B eq_refl)).
  - exact (proj1 (proj2 (proj2 (C10_validator_requires_git_directory _ _ _ _) _ A eq_refl)
                   Part000V _ C eq_refl)).
Defined.

(** git itself works in a linked worktree, where [.git] is a file: the
    status query would succeed, but the run never gets there. *)
Example worktree_is_rejected_although_git_works :
  cmd_err (fst (Sim.exec ["git"; "-C"; "/etc/nixos"; "status"; "--porcelain"]
                         Sample.worktree)) = None
  /\ commands (trace (program MainGoV Sim.platform Sample.worktree)) = [].
Proof. vm_compute. split; reflexivity. Qed.

(** ** C9: delivery failures change nothing *)










(** On the simulated machine: a dead webhook against a live one. *)
Example dead_webhook_same_outcome :
  let dead := with_http Sim.platform (fun _ _ _ => Some "dial tcp: connection refused") in
  result (program Part000V dead Sample.behind) = Returned Success
  /\ notifications (trace (program Part000V dead Sample.behind))
     = notifications (trace (program Part000V Sim.platform Sample.behind))
  /\ In (EvLog "failed to send Discord webhook: dial tcp: connection refused")
        (trace (program Part000V dead Sample.behind)).
Proof. vm_compute. repeat split; auto 50. Qed.

(** ** C6: the two variants resolve the same tips *)

(** *** Object ids survive [strings.Fields] and [strings.TrimSpace] *)

Section OidText.
Import Sim.

Lemma append_cons a s t : String a s ++ t = String a (s ++ t).
Proof. reflexivity. Qed.



Lemma append_assoc (s t u : string) : (s ++ t) ++ u = s ++ t ++ u.
Proof. induction s as [|a s IH]; [reflexivity|]. rewrite !append_cons. now rewrite IH. Qed.

Lemma append_cancel (s t u : string) : s ++ t = s ++ u -> t = u.
Proof.
  induction s as [|a s IH]; [now intros|]. rewrite !append_cons. intros [= H]. auto.
Qed.

Lemma length_append (s t : string) :
  String.length (s ++ t) = String.length s + String.length t.
Proof. induction s as [|a s IH]; [reflexivity|]. rewrite append_cons. cbn. now rewrite IH. Qed.


(** One step of [pieces]: a white-space rune, or else one byte. *)
Lemma pieces_step a s :
  pieces (String a s)
  = match lead (String a s) with
    | Some (p, rest) => p :: pieces rest
    | None => Other a :: pieces s
    end.
Proof.
  cbn [pieces lead]. destruct (isSpace a); [reflexivity|].
  destruct s as [|b s]; [reflexivity|].
  destruct (isSpace2 a b); [reflexivity|].
  destruct s as [|c s]; [reflexivity|].
  now destruct (isSpace3 a b c).
Qed.

(** What [lead] takes off is a white-space rune at the front. *)
Lemma lead_bytes s p rest :
  lead s = Some (p, rest) -> s = bytes p ++ rest /\ space p = true.
Proof.
  destruct s as [|a s]; [discriminate|]. cbn [lead].
  destruct (isSpace a); [now intros [= <- <-]|].
  destruct s as [|b s]; [discriminate|].
  destruct (isSpace2 a b); [now intros [= <- <-]|].
  destruct s as [|c s]; [discriminate|].
  destruct (isSpace3 a b c); [now intros [= <- <-]|discriminate].
Qed.

(** A white-space rune at the front stays one whatever follows it. *)
Lemma lead_app s p rest t :
  lead s = Some (p, rest) -> lead (s ++ t) = Some (p, rest ++ t).
Proof.
  destruct s as [|a s]; [discriminate|]. rewrite append_cons. cbn [lead].
  destruct (isSpace a); [now intros [= <- <-]|].
  destruct s as [|b s]; [discriminate|]. rewrite append_cons.
  destruct (isSpace2 a b); [now intros [= <- <-]|].
  destruct s as [|c s]; [discriminate|]. rewrite append_cons.
  destruct (isSpace3 a b c); [now intros [= <- <-]|discriminate].
Qed.

Lemma lead_again s p rest t :
  lead s = Some (p, rest) -> lead (bytes p ++ t) = Some (p, t).
Proof.
  destruct s as [|a s]; [discriminate|]. cbn [lead].
  destruct (isSpace a) eqn:E1.
  { intros [= <- <-]. cbn [bytes]. rewrite append_cons. cbn [lead]. now rewrite E1. }
  destruct s as [|b s]; [discriminate|].
  destruct (isSpace2 a b) eqn:E2.
  { intros [= <- <-]. cbn [bytes]. rewrite !append_cons. cbn [lead]. now rewrite E1, E2. }
  destruct s as [|c s]; [discriminate|].
  destruct (isSpace3 a b c) eqn:E3; [|discriminate].
  intros [= <- <-]. cbn [bytes]. rewrite !append_cons. cbn [lead]. now rewrite E1, E2, E3.
Qed.

Lemma join_plain f : join (plain f) = f.
Proof. induction f as [|a f IH]; [reflexivity|]. cbn [plain join bytes]. now rewrite IH. Qed.








(** *** How names resolve *)











(** *** What [ls-remote] lists *)








(** *** The world while the run goes on *)






End OidText.

Arguments Sim.rev_parse : simpl never.
Arguments Sim.in_checkout : simpl never.
Arguments Sim.oid_text : simpl never.
Arguments Sim.fetch_source : simpl never.
Arguments Sim.listed : simpl never.







Lemma remote_stable_unchanged w : remote_stable w -> remote_unchanged w.
Proof. intros H n m r1 r2 H1 H2. rewrite (H n m) in H1. congruence. Qed.


Example forked_remote_tips_differ :
  result (resolveTips MainGoV Sim.platform "/etc/nixos" "main" Sample.forked)
  = Some ("aaa111", "aaa111")
  /\ result (resolveTips Part000V Sim.platform "/etc/nixos" "main" Sample.forked)
     = Some ("bbb222", "aaa111").
Proof. vm_compute. split; reflexivity. Qed.



(** The other conditions are needed as well.  With [HEAD] detached
    elsewhere the local tips differ; when the remote goes away after the
    first contact, [main.go], which contacts it twice, fails where
    [part_000] succeeds; a local branch [origin/main] is what [part_000]
    reads for the remote tip; and a branch given by its full ref name
    resolves for [main.go] but not, behind [origin/], for [part_000]. *)
Example detached_head_tips_differ :
  result (resolveTips MainGoV Sim.platform "/etc/nixos" "main" Sample.detached)
  = Some ("bbb222", "aaa111")
  /\ result (resolveTips Part000V Sim.platform "/etc/nixos" "main" Sample.detached)
     = Some ("bbb222", "bbb222").
Proof. vm_compute. split; reflexivity. Qed.

Example shadowed_tracking_tips_differ :
  result (resolveTips MainGoV Sim.platform "/etc/nixos" "main" Sample.shadowed)
  = Some ("bbb222", "aaa111")
  /\ result (resolveTips Part000V Sim.platform "/etc/nixos" "main" Sample.shadowed)
     = Some ("aaa111", "aaa111").
Proof. vm_compute. split; reflexivity. Qed.

Example full_ref_name_tips_differ :
  result (resolveTips MainGoV Sim.platform "/etc/nixos" "refs/heads/main" Sample.behind)
  = Some ("bbb222", "aaa111")
  /\ result (resolveTips Part000V Sim.platform "/etc/nixos" "refs/heads/main" Sample.behind)
     = None.
Proof. vm_compute. split; reflexivity. Qed.

Example unstable_remote_tips_differ :
  result (resolveTips MainGoV Sim.platform "/etc/nixos" "main" (Sample.dropping 1)) = None
  /\ result (resolveTips Part000V Sim.platform "/etc/nixos" "main" (Sample.dropping 1))
     = Some ("bbb222", "aaa111").
Proof. vm_compute. split; reflexivity. Qed.

(** * Further properties of the code *)

(** ** White space: [strings.TrimSpace] and [strings.Fields] *)

Lemma join_app ps qs : join (ps ++ qs)%list = join ps ++ join qs.
Proof.
  induction ps as [|p ps IH]; [reflexivity|].
  cbn [join app]. now rewrite IH, append_assoc.
Qed.

Lemma join_pieces s : join (pieces s) = s.
Proof.
  remember (String.length s) as n eqn:Hn.
  revert s Hn. induction n as [n IH] using lt_wf_ind. intros s Hn.
  destruct s as [|a s]; [reflexivity|]. rewrite pieces_step.
  destruct (lead (String a s)) as [[p rest]|] eqn:E.
  - apply lead_bytes in E as E'. destruct E' as [Hs _]. cbn [join].
    rewrite (IH (String.length rest)) with (s := rest); [now rewrite Hs | | reflexivity].
    subst n. rewrite Hs. destruct p; cbn [bytes]; rewrite append_cons; cbn [String.length];
      rewrite length_append; lia.
  - cbn [join bytes]. rewrite append_cons.
    rewrite (IH (String.length s)) with (s := s); [reflexivity | subst n; cbn; lia | reflexivity].
Qed.

Lemma bytes_not_empty p : exists a s, bytes p = String a s.
Proof. destruct p; cbn; eauto. Qed.

Lemma join_empty ps : join ps = "" -> ps = [].
Proof.
  destruct ps as [|p ps]; [reflexivity|]. cbn [join].
  destruct (bytes_not_empty p) as (a & s & ->). discriminate.
Qed.

(** *** Pieces that read back as they are *)

Lemma tight_pieces s : tight (pieces s).
Proof. unfold tight. now rewrite join_pieces. Qed.

(** The first piece of a tight list, and the rest. *)
Lemma tight_cons p ps :
  tight (p :: ps) ->
  tight ps
  /\ match p with
     | Space _ _ => lead (bytes p ++ join ps) = Some (p, join ps)
     | Other a => lead (String a (join ps)) = None
     end.
Proof.
  unfold tight. cbn [join].
  destruct (bytes_not_empty p) as (a & s & Hp). rewrite Hp, append_cons, pieces_step.
  rewrite <- append_cons, <- Hp.
  destruct (lead (bytes p ++ join ps)) as [[q rest]|] eqn:E.
  - intros [= -> H]. apply lead_bytes in E as E'. destruct E' as [Hs Hq].
    apply append_cancel in Hs. subst rest.
    split; [exact H|]. destruct p; [reflexivity | discriminate].
  - intros [= <- H]. cbn [bytes] in Hp. injection Hp as <-.
    split; [exact H | exact E].
Qed.

Lemma tight_tail p ps : tight (p :: ps) -> tight ps.
Proof. intros H. exact (proj1 (tight_cons _ _ H)). Qed.

Lemma tight_drop ps qs : tight (ps ++ qs)%list -> tight qs.
Proof.
  induction ps as [|p ps IH]; [now intros|]. intros H. apply IH.
  exact (tight_tail _ _ H).
Qed.

Lemma tight_take ps qs : tight (ps ++ qs)%list -> tight ps.
Proof.
  induction ps as [|p ps IH]; [reflexivity|]. cbn [app]. intros H.
  destruct (tight_cons _ _ H) as [Hrest Hp]. specialize (IH Hrest).
  unfold tight in *. cbn [join].
  destruct p as [a more|a].
  - rewrite join_app, <- append_assoc in Hp.
    assert (E : lead (bytes (Space a more) ++ join ps) = Some (Space a more, join ps))
      by exact (lead_again _ _ _ _ Hp).
    cbn [bytes] in *. rewrite append_cons in *. rewrite pieces_step, E. now rewrite IH.
  - cbn [bytes]. rewrite append_cons. change ("" ++ join ps) with (join ps).
    rewrite pieces_step.
    destruct (lead (String a (join ps))) as [[q rest]|] eqn:E.
    + apply (lead_app _ _ _ (join qs)) in E. rewrite append_cons, <- join_app in E.
      congruence.
    + now rewrite IH.
Qed.

Lemma trimLeft_nil ps : trimLeft ps = [] <-> forallb space ps = true.
Proof.
  induction ps as [|p ps IH]; cbn [trimLeft forallb]; [tauto|].
  destruct (space p); cbn [andb]; [exact IH | split; discriminate].
Qed.

Lemma trimRight_nil ps : trimRight ps = [] <-> forallb space ps = true.
Proof.
  induction ps as [|p ps IH]; cbn [trimRight forallb]; [tauto|].
  destruct (trimRight ps) as [|q t].
  - destruct (space p); cbn [andb]; [tauto | split; discriminate].
  - destruct (space p); cbn [andb]; (split; [discriminate|]).
    + intros H. apply IH in H. discriminate H.
    + discriminate.
Qed.

Lemma forallb_trimLeft ps : forallb space (trimLeft ps) = forallb space ps.
Proof.
  induction ps as [|p ps IH]; cbn [trimLeft forallb]; [reflexivity|].
  destruct (space p) eqn:E; cbn [andb]; [exact IH|].
  cbn [forallb]. now rewrite E.
Qed.

(** Trimming leaves nothing exactly of the strings that are all white space. *)
Lemma TrimSpace_empty s : TrimSpace s = "" <-> allSpace s = true.
Proof.
  unfold TrimSpace, allSpace. rewrite <- forallb_trimLeft, <- trimRight_nil.
  split; [apply join_empty | now intros ->].
Qed.








Lemma plain_snoc f c : plain (f ++ String c "") = (plain f ++ [Other c])%list.
Proof.
  induction f as [|a f IH]; [reflexivity|]. rewrite append_cons. cbn [plain app]. now rewrite IH.
Qed.

Lemma noSpace_plain f : forallb (fun p => negb (space p)) (plain f) = true.
Proof. induction f as [|a f IH]; [reflexivity|]. exact IH. Qed.

(** A string whose bytes read back as they are has no white space. *)
Lemma tight_plain_token f : f <> "" -> tight (plain f) -> token f.
Proof.
  intros Hne H. split; [exact Hne|]. unfold noSpace.
  unfold tight in H. rewrite join_plain in H. rewrite H. apply noSpace_plain.
Qed.

Lemma snoc_not_empty f c : f ++ String c "" <> "".
Proof. destruct f; discriminate. Qed.

(** Every field is a token: between two white-space runes of a string,
    the bytes hold no white space of their own. *)
Lemma fieldsFrom_tokens ps : forall cur,
  match cur with
  | Some f => f <> "" /\ tight (plain f ++ ps)%list
  | None => tight ps
  end ->
  Forall token (fieldsFrom cur ps).
Proof.
  induction ps as [|p ps IH]; intros cur Hcur; cbn [fieldsFrom].
  - destruct cur as [f|]; [|constructor]. destruct Hcur as [Hne Ht].
    rewrite app_nil_r in Ht. constructor; [now apply tight_plain_token | constructor].
  - destruct p as [a more|c].
    + destruct cur as [f|].
      * destruct Hcur as [Hne Ht]. constructor.
        -- apply tight_plain_token; [exact Hne | exact (tight_take _ _ Ht)].
        -- apply (IH None). apply tight_drop in Ht. exact (tight_tail _ _ Ht).
      * apply (IH None). exact (tight_tail _ _ Hcur).
    + destruct cur as [f|].
      * destruct Hcur as [Hne Ht]. apply (IH (Some _)). split; [apply snoc_not_empty|].
        rewrite plain_snoc, <- app_assoc. exact Ht.
      * apply (IH (Some _)). split; [discriminate | exact Hcur].
Qed.

Lemma Fields_tokens s : Forall token (Fields s).
Proof. apply (fieldsFrom_tokens _ None). apply tight_pieces. Qed.

Lemma fieldsFrom_started ps : forall f, fieldsFrom (Some f) ps <> [].
Proof.
  induction ps as [|p ps IH]; intros f; cbn [fieldsFrom]; [discriminate|].
  destruct p; [discriminate | apply IH].
Qed.

(** There is no field exactly in the strings that are all white space. *)
Lemma Fields_empty s : Fields s = [] <-> allSpace s = true.
Proof.
  unfold Fields, allSpace. induction (pieces s) as [|p ps IH]; cbn [fieldsFrom forallb]; [tauto|].
  destruct p; cbn [space andb]; [exact IH|].
  split; [intros H; now apply fieldsFrom_started in H | discriminate].
Qed.

(** ** The helper functions, one by one *)

Arguments allSpace : simpl never.
Arguments noSpace : simpl never.

Section Helpers.
Context {W : Type} (P : Platform W).

Ltac open_fn :=
  unfold result, isRepoClean, MainGo.getRemoteHash, MainGo.getLocalHash,
    Part000.getRemoteHash, Part000.getLocalHash, traced, bind, Command, emit, ret; cbn.

(** X2. [isRepoClean] reports a clean tree exactly when [git status
    --porcelain] succeeds and prints nothing but white space (blank lines
    count as clean); it reports a dirty tree exactly when the command
    succeeds and prints anything else; and it fails exactly when the command
    fails, with the command's own error, unwrapped. *)
Theorem isRepoClean_clean_iff_blank (repoPath : string) (w : W) :
  let out := fst (exec_Command P ["git"; "-C"; repoPath; "status"; "--porcelain"] w) in
  (result (isRepoClean P repoPath w) = Ok true
   <-> cmd_err out = None /\ allSpace (cmd_stdout out) = true)
  /\ (result (isRepoClean P repoPath w) = Ok false
      <-> cmd_err out = None /\ allSpace (cmd_stdout out) = false)
  /\ (forall e, result (isRepoClean P repoPath w) = Err e <-> cmd_err out = Some e).
Proof.
  open_fn.
  destruct (exec_Command P _ w) as [[out [e|]] w']; cbn.
  - repeat split; try discriminate; try (intros [H _]; discriminate H);
      intros H; congruence.
  - destruct (String.eqb_spec (TrimSpace out) "") as [E|E].
    + apply TrimSpace_empty in E. rewrite E.
      split; [tauto |]. split; [| intros e; split; discriminate].
      split; [discriminate | intros [_ A]; discriminate A].
    + assert (A : allSpace out = false).
      { destruct (allSpace out) eqn:A; [|reflexivity].
        apply TrimSpace_empty in A. contradiction. }
      rewrite A. split; [| split; [tauto | intros e; split; discriminate]].
      split; [discriminate | intros [_ B]; discriminate B].
Qed.

(** X3. When [getRemoteHash] of [main.go] succeeds, the hash it returns is
    the first white-space-separated field of what [git ls-remote] printed:
    it is never empty and contains no white space.  When the command
    succeeds but prints only white space (the branch is not on the remote),
    the result is the error "no hash found for branch <branch>"; when the
    command fails, its error is wrapped as "failed to get remote hash: ...". *)
Theorem getRemoteHash_returns_first_token (repoPath branch : string) (w : W) :
  let out := fst (exec_Command P ["git"; "-C"; repoPath; "ls-remote"; "origin"; branch] w) in
  (forall h, result (MainGo.getRemoteHash P repoPath branch w) = Ok h ->
     cmd_err out = None /\ h <> "" /\ noSpace h = true
     /\ exists rest, Fields (cmd_stdout out) = h :: rest)
  /\ (cmd_err out = None -> allSpace (cmd_stdout out) = true ->
      result (MainGo.getRemoteHash P repoPath branch w)
      = Err ("no hash found for branch " ++ branch))
  /\ (forall e, cmd_err out = Some e ->
      result (MainGo.getRemoteHash P repoPath branch w)
      = Err ("failed to get remote hash: " ++ e)).
Proof.
  open_fn.
  destruct (exec_Command P _ w) as [[out [e|]] w']; cbn.
  - repeat split; try discriminate. intros e' [= <-]. reflexivity.
  - pose proof (Fields_tokens out) as Htok. pose proof (Fields_empty out) as Hemp.
    destruct (Fields out) as [|part0 parts]; cbn.
    + split; [discriminate | split; [reflexivity | discriminate]].
    + split; [| split; [| discriminate]].
      * intros h [= <-]. inversion Htok as [|? ? [Hne Hns] _]; subst.
        repeat split; try assumption. now exists parts.
      * intros _ A. apply Hemp in A. discriminate A.
Qed.


(** The loop of [pullRepo], for any list of commands: either every command
    ran and none failed, or the commands ran up to the first that failed,
    and its error is returned wrapped. *)
Lemma runEach_all_or_first_failure (cmds : list (list string)) : forall w,
  match result (runEach P cmds w) with
  | None => commands (trace (runEach P cmds w)) = cmds
  | Some e =>
      exists pre c post e0,
        cmds = (pre ++ c :: post)%list
        /\ commands (trace (runEach P cmds w)) = (pre ++ [c])%list
        /\ e = "git command failed: " ++ e0
  end.
Proof.
  induction cmds as [|c cmds IH]; intros w; [reflexivity|].
  cbn [runEach]. unfold bind, Command, result, trace.
  destruct (exec_Command P c w) as [[out [e|]] w1]; cbn.
  - exists [], c, cmds, e. repeat split.
  - specialize (IH w1). unfold result, trace in IH.
    destruct (runEach P cmds w1) as [[[e|] w2] t]; cbn in IH |- *.
    + destruct IH as (pre & c' & post & e0 & -> & -> & ->).
      exists (c :: pre), c', post, e0. repeat split.
    + now rewrite IH.
Qed.

Lemma commands_app (t1 t2 : list Event) :
  commands (t1 ++ t2)%list = (commands t1 ++ commands t2)%list.
Proof.
  induction t1 as [|e t1 IH]; [reflexivity|].
  destruct e; cbn [app commands]; now rewrite ?IH.
Qed.

Lemma pullRepo_as_loop (repoPath branch : string) (w : W) :
  let loop := runEach P [ ["git"; "-C"; repoPath; "fetch"; "origin"; branch];
                          ["git"; "-C"; repoPath; "reset"; "--hard"; "origin/" ++ branch] ] in
  result (pullRepo P repoPath branch w) = result (loop w)
  /\ final (pullRepo P repoPath branch w) = final (loop w)
  /\ commands (trace (pullRepo P repoPath branch w)) = commands (trace (loop w)).
Proof.
  cbv zeta. unfold pullRepo, traced, bind, emit, ret, result, final, trace.
  destruct (runEach P _ w) as [[a w'] t]. cbn.
  rewrite commands_app. cbn. now rewrite app_nil_r.
Qed.

(** X1. [pullRepo] runs [git fetch origin <branch>] and, only when that
    succeeded, [git reset --hard origin/<branch>]: when the fetch fails the
    reset is not run, the world is as the failed fetch left it, and the
    error is the fetch's, wrapped as "git command failed: ...".  [pullRepo]
    returns nil only after both commands ran, and every error it returns is
    so wrapped. *)
Theorem pullRepo_resets_only_after_fetch (repoPath branch : string) (w : W) :
  let fetch := ["git"; "-C"; repoPath; "fetch"; "origin"; branch] in
  let reset := ["git"; "-C"; repoPath; "reset"; "--hard"; "origin/" ++ branch] in
  let r := pullRepo P repoPath branch w in
  (cmd_err (fst (exec_Command P fetch w)) = None ->
     commands (trace r) = [fetch; reset])
  /\ (forall e, cmd_err (fst (exec_Command P fetch w)) = Some e ->
        commands (trace r) = [fetch]
        /\ result r = Some ("git command failed: " ++ e)
        /\ final r = snd (exec_Command P fetch w))
  /\ (result r = None -> commands (trace r) = [fetch; reset])
  /\ (forall e, result r = Some e -> exists e0, e = "git command failed: " ++ e0).
Proof.
  cbv zeta.
  destruct (pullRepo_as_loop repoPath branch w) as (Hres & Hfin & Hcmd).
  rewrite Hres, Hfin, Hcmd.
  pose proof (runEach_all_or_first_failure
                [ ["git"; "-C"; repoPath; "fetch"; "origin"; branch];
                  ["git"; "-C"; repoPath; "reset"; "--hard"; "origin/" ++ branch] ] w)
    as Hloop.
  split; [| split; [| split]].
  - cbn [runEach]. unfold bind, Command, ret, trace.
    destruct (exec_Command P _ w) as [[out [e|]] w1]; cbn; [discriminate|]. intros _.
    now destruct (exec_Command P _ w1) as [[out' [e|]] w2].
  - intros e. cbn [runEach]. unfold bind, Command, ret, trace, result, final.
    destruct (exec_Command P _ w) as [[out [e'|]] w1]; cbn; [|discriminate].
    intros [= ->]. repeat split.
  - intros Hnil. now rewrite Hnil in Hloop.
  - intros e He. rewrite He in Hloop.
    destruct Hloop as (_ & _ & _ & e0 & _ & _ & ->). now exists e0.
Qed.
End Helpers.

(** White space is Unicode's: a no-break space (C2 A0) before the line
    feed is trimmed with it, and a next-line control (C2 85) or a no-break
    space ends a field as a blank does. *)
Example unicode_white_space :
  TrimSpace (String "194" (String "160" (String "010" ""))) = ""
  /\ Fields (String "194" (String "133" ("abc123" ++ String "194" (String "160" "def"))))
     = ["abc123"; "def"]
  /\ TrimSpace (String "227" (String "128" (String "128" ("abc" ++ String "009" ""))))
     = "abc".
Proof. vm_compute. repeat split. Qed.

(** On the simulated machine: blank lines from the status query count as
    clean, and the remote hash is the first field of the [ls-remote] line. *)
Example blank_status_is_clean :
  result (isRepoClean Sim.platform "/etc/nixos"
            (Sample.world Sample.checkout "/etc/nixos" Sample.at_aaa [""; ""]
                          (Sample.remote_at Sample.bbb222) None))
  = Ok true.
Proof. vm_compute. reflexivity. Qed.

Example remote_hash_is_first_field :
  cmd_stdout (fst (Sim.exec ["git"; "-C"; "/etc/nixos"; "ls-remote"; "origin"; "main"]
                            Sample.behind))
  = "bbb222" ++ Sim.TAB ++ "refs/heads/main" ++ Sim.LF
  /\ result (MainGo.getRemoteHash Sim.platform "/etc/nixos" "main" Sample.behind)
     = Ok "bbb222"
  /\ result (MainGo.getRemoteHash Sim.platform "/etc/nixos" "release" Sample.behind)
     = Err "no hash found for branch release".
Proof. vm_compute. repeat split. Qed.

(** ** The pipeline as a whole *)

(** X5. In every run, of either variant and on any platform, a hard reset is
    executed only inside [pullRepo], and [pullRepo] is entered only after the
    validator returned true, the cleanliness check returned clean, and both
    tips were resolved to different identifiers. *)
Theorem sync_only_when_clean_and_behind :
  forall (v : Variant) (W : Type) (P : Platform W) (w : W),
    (forall repoPath target,
       In (hard_reset repoPath target) (commands (trace (program v P w))) ->
       In (EvCall F_pullRepo) (trace (program v P w)))
    /\ (In (EvCall F_pullRepo) (trace (program v P w)) ->
        let before := before_call F_pullRepo (trace (program v P w)) in
        returns F_isGitRepo before = [RetBool true]
        /\ returns F_isRepoClean before = [RetBool true]
        /\ exists remoteHash localHash,
             returns F_getRemoteHash before = [RetStr remoteHash]
             /\ returns F_getLocalHash before = [RetStr localHash]
             /\ remoteHash <> localHash).
Proof.
  intros v W P w.
  run_program v P w; unfold hard_reset;
    (split;
     [ intros repoPath target Hin; sift; found
     | intros Hin; sift; cbn;
       (split; [reflexivity | split; [reflexivity |]]);
       eexists _, _; (split; [reflexivity | split; [reflexivity | assumption]]) ]).
Qed.

(** X6. In every run, of either variant and on any platform, [nixos-rebuild
    switch] is executed only inside [rebuildNixOS], and [rebuildNixOS] is
    entered only after [pullRepo] returned nil, the hard reset to
    [origin/<branch>] of the configured path having been executed. *)
Theorem rebuild_only_after_successful_sync :
  forall (v : Variant) (W : Type) (P : Platform W) (w : W),
    (In ["nixos-rebuild"; "switch"] (commands (trace (program v P w))) ->
     In (EvCall F_rebuildNixOS) (trace (program v P w)))
    /\ (In (EvCall F_rebuildNixOS) (trace (program v P w)) ->
        let before := before_call F_rebuildNixOS (trace (program v P w)) in
        returns F_pullRepo before = [RetNil]
        /\ exists cfg,
             In (RetCfg cfg) (returns F_loadConfig before)
             /\ In (hard_reset (RepoPath cfg) ("origin/" ++ Branch cfg)) (commands before)).
Proof.
  intros v W P w.
  run_program v P w; unfold hard_reset;
    (split;
     [ intros Hin; sift; found
     | intros Hin; sift; cbn; (split; [reflexivity |]);
       eexists; (split; [found | found]) ]).
Qed.

(** X7. In every run, of either variant and on any platform, in which the
    configuration loads, what is notified is decided by how the run ends: at
    most one message goes out, to the configured webhook and nowhere else,
    it is the message of that exit ([NoChange] has none), and the host name
    in it is the one [os.Hostname] gave, or "unknown-host" when that call
    failed, in which case the failure is logged and the run goes on. *)
Theorem outcome_determines_notification :
  forall (v : Variant) (W : Type) (P : Platform W) (w : W) (cfg : Config),
    In (RetCfg cfg) (returns F_loadConfig (trace (program v P w))) ->
    notifications (trace (program v P w))
    = match notice_for (result (program v P w)) (RepoPath cfg) (effective_hostname P w) with
      | Some message => [(DiscordWebhook cfg, message)]
      | None => []
      end
    /\ calls F_sendDiscord (trace (program v P w))
       = length (notifications (trace (program v P w)))
    /\ (forall e, os_Hostname P w = Err e ->
          In (EvLog ("failed to get hostname: " ++ e)) (trace (program v P w))).
Proof.
  intros v W P w cfg.
  run_program v P w; intros Hcfg; sift; subst; unfold effective_hostname;
    try match goal with H : os_Hostname _ _ = _ |- _ => rewrite H end;
    (split; [reflexivity | split; [reflexivity |]]);
    intros e' He'; first [ discriminate He' | injection He' as <-; found ].
Qed.

Lemma outcome_determines_notification_witness :
  In (RetCfg Sample.cfg) (returns F_loadConfig (trace (program MainGoV Sim.platform nameless)))
  /\ notifications (trace (program MainGoV Sim.platform nameless))
     = [(DiscordWebhook Sample.cfg, skipped_notice "/etc/nixos" "unknown-host")]
  /\ In (EvLog "failed to get hostname: hostname: cannot read")
        (trace (program MainGoV Sim.platform nameless)).
Proof.
  assert (A : In (RetCfg Sample.cfg)
                (returns F_loadConfig (trace (program MainGoV Sim.platform nameless))))
    by (vm_compute; auto).
  split; [exact A |]. split.
  - rewrite (proj1 (outcome_determines_notification _ _ _ _ _ A)).
    vm_compute. reflexivity.
  - exact (proj2 (proj2 (outcome_determines_notification _ _ _ _ _ A)) _ eq_refl).
Defined.

(** X8. In every run, of either variant and on any platform, the success
    message is sent exactly when [rebuildNixOS] returned nil, which is
    exactly when the run ends at the [Success] exit. *)
Theorem success_notice_iff_rebuild_succeeded :
  forall (v : Variant) (W : Type) (P : Platform W) (w : W),
    ((exists url hostname,
        In (url, success_notice "" hostname) (notifications (trace (program v P w))))
     <-> In RetNil (returns F_rebuildNixOS (trace (program v P w))))
    /\ (In RetNil (returns F_rebuildNixOS (trace (program v P w)))
        <-> result (program v P w) = Returned Success).
Proof.
  intros v W P w.
  run_program v P w; unfold success_notice;
    (split; split;
     [ intros (url & hostname & Hin); sift;
       first [ found
             | match goal with
               | H : (_, _) = (_, _) |- _ => injection H as _ H; discriminate H
               end ]
     | intros Hin; sift; eexists _, _; left; reflexivity
     | intros Hin; sift; reflexivity
     | intros E; first [ discriminate E | found ] ]).
Qed.

(** X9. The files a run touches, on any platform.  [main.go] opens
    "/etc/nix-config-manager.json", once, and never creates or writes a
    file: it never persists a revision.  [part_000] opens "config.json",
    once, and creates or writes no file but "config.json", and that only
    after [rebuildNixOS] returned nil. *)
Theorem files_touched :
  forall (W : Type) (P : Platform W) (w : W),
    (files_opened (trace (MainGo.main P w)) = ["/etc/nix-config-manager.json"]
     /\ files_written (trace (MainGo.main P w)) = []
     /\ persisted (trace (MainGo.main P w)) = [])
    /\ (files_opened (trace (Part000.main P w)) = ["config.json"]
        /\ Forall (fun path => path = "config.json")
                  (files_written (trace (Part000.main P w)))
        /\ (files_written (trace (Part000.main P w)) <> [] ->
            In RetNil (returns F_rebuildNixOS
                         (before_call F_saveConfig (trace (Part000.main P w)))))).
Proof.
  intros W P w. split.
  - run_on (MainGo.main P w); repeat split.
  - run_on (Part000.main P w);
      (split; [reflexivity | split; [repeat constructor |]]);
      intros Hw; first [ now contradiction Hw | found ].
Qed.

(** X10. No retries: in every run, of either variant and on any platform,
    each function of the program, the Notifier included, is entered at most
    once. *)
Theorem no_function_runs_twice :
  forall (v : Variant) (W : Type) (P : Platform W) (w : W) (f : Fn),
    calls f (trace (program v P w)) <= 1.
Proof.
  intros v W P w f.
  run_program v P w; destruct f; cbn; lia.
Qed.

(** X11. In every run, of either variant and on any platform, every child
    process started is one of eight command lines built from the loaded
    configuration: git, always with [-C <RepoPath>], for status, ls-remote,
    fetch, rev-parse and reset --hard origin/<Branch>, and [nixos-rebuild
    switch].  When any process is started at all, the validator had returned
    true and the first process is the status query. *)
Theorem only_known_commands_run :
  forall (v : Variant) (W : Type) (P : Platform W) (w : W),
    (forall cfg,
       In (RetCfg cfg) (returns F_loadConfig (trace (program v P w))) ->
       Forall (fun argv => In argv (known_commands cfg)) (commands (trace (program v P w))))
    /\ (commands (trace (program v P w)) <> [] ->
        returns F_isGitRepo (trace (program v P w)) = [RetBool true]
        /\ exists cfg, In (RetCfg cfg) (returns F_loadConfig (trace (program v P w)))
                       /\ nth_error (commands (trace (program v P w))) 0
                          = Some ["git"; "-C"; RepoPath cfg; "status"; "--porcelain"]).
Proof.
  intros v W P w.
  run_program v P w;
    (split;
     [ intros cfg' Hcfg; sift; subst; unfold known_commands;
       repeat (constructor; [found |]); constructor
     | intros Hc; first [ now contradiction Hc
                        | split; [reflexivity | eexists; split; [found | reflexivity]] ] ]).
Qed.

(** *** The stored revision is write-only *)

Lemma besides_loaded_app (t1 t2 : list Event) :
  besides_loaded (t1 ++ t2)%list = (besides_loaded t1 ++ besides_loaded t2)%list.
Proof.
  induction t1 as [|e t1 IH]; [reflexivity|].
  destruct e as [| [] ? | | | | | | | |]; cbn [app besides_loaded]; now rewrite ?IH.
Qed.

(** Two programs whose first steps end in related results and are followed
    by continuations that agree on related results. *)
Lemma bind_after_related_results {W A B} (R : A -> A -> Prop)
    (m1 m2 : Prog W A) (k1 k2 : A -> Prog W B) (w : W) :
  R (result (m1 w)) (result (m2 w)) ->
  final (m1 w) = final (m2 w) ->
  besides_loaded (trace (m1 w)) = besides_loaded (trace (m2 w)) ->
  (forall a1 a2 w', R a1 a2 -> k1 a1 w' = k2 a2 w') ->
  result (bind m1 k1 w) = result (bind m2 k2 w)
  /\ final (bind m1 k1 w) = final (bind m2 k2 w)
  /\ besides_loaded (trace (bind m1 k1 w)) = besides_loaded (trace (bind m2 k2 w)).
Proof.
  unfold bind, result, final, trace.
  destruct (m1 w) as [[a1 w1] t1], (m2 w) as [[a2 w2] t2]. cbn.
  intros HR -> Ht Hk. rewrite (Hk a1 a2 w2 HR).
  destruct (k2 a2 w2) as [[b w3] t3]. cbn.
  rewrite !besides_loaded_app, Ht. repeat split.
Qed.

Lemma loadConfig_with_revision {W} (v : Variant) (P : Platform W) (h : string) (w : W) :
  let P' := with_decode P (decode_with_revision P h) in
  let load (Q : Platform W) :=
    match v with MainGoV => MainGo.loadConfig Q | Part000V => Part000.loadConfig Q end in
  result (load P' w) = revision_replaced h (result (load P w))
  /\ final (load P' w) = final (load P w)
  /\ besides_loaded (trace (load P' w)) = besides_loaded (trace (load P w)).
Proof.
  cbv zeta. destruct v;
    unfold MainGo.loadConfig, Part000.loadConfig, traced, bind, Open, emit, ret,
      result, final, trace, decode_with_revision, revision_replaced; cbn;
    destruct (os_Open P _ w) as [data|e]; cbn; try (repeat split; fail);
    destruct (json_Decode P data) as [cfg|e]; cbn; repeat split.
Qed.

(** X12. Neither variant ever reads the stored [LastCommitHash]: on any
    platform, had the configuration file held any other revision [h], the
    run would end the same way, leave the same world and do the same things
    (same commands, same notifications, same configuration written back);
    only the value [loadConfig] returns differs. *)
Theorem stored_revision_is_never_read :
  forall (v : Variant) (W : Type) (P : Platform W) (h : string) (w : W),
    let P' := with_decode P (decode_with_revision P h) in
    result (program v P' w) = result (program v P w)
    /\ final (program v P' w) = final (program v P w)
    /\ besides_loaded (trace (program v P' w)) = besides_loaded (trace (program v P w)).
Proof.
  intros v W P h w. cbv zeta.
  destruct (loadConfig_with_revision v P h w) as (Hr & Hw & Ht).
  destruct v; unfold program, MainGo.main, Part000.main;
    (apply bind_after_related_results with (R := fun a1 a2 => a1 = revision_replaced h a2);
     [ exact Hr | exact Hw | exact Ht
     | intros a1 [cfg|e] w' ->; reflexivity ]).
Qed.

(** ** From one run to the next, on the simulated checkout *)









(** With a second branch on the remote whose name ends in [/main],
    [main.go] compares against that branch: after a successful pull it still
    finds a change. *)
Example ambiguous_remote_changes_after_pull :
  result (pullRepo Sim.platform "/etc/nixos" "main" Sample.forked) = None
  /\ result (resolveTips MainGoV Sim.platform "/etc/nixos" "main"
               (final (pullRepo Sim.platform "/etc/nixos" "main" Sample.forked)))
     = Some ("aaa111", "bbb222")
  /\ result (resolveTips Part000V Sim.platform "/etc/nixos" "main"
               (final (pullRepo Sim.platform "/etc/nixos" "main" Sample.forked)))
     = Some ("bbb222", "bbb222").
Proof. vm_compute. repeat split. Qed.


